(** * SEO analyzer: fetch with proxy fallback, DOM heuristics and scoring

    A shallow embedding of [utils/seoAnalyzer.ts] ([fetchWithFallback],
    [analyzeSeo]) and of the [handleAnalysis] handler of
    [components/SeoAnalyzer.tsx], followed by the properties of the
    specification stated over them.

    Conventions of the embedding.
    - A JavaScript string is a [string]; every [ascii] stands for one code
      unit below 256, so [length] is the JavaScript [.length].
    - Element counts are [nat]; scores are [Z].
    - A rejected promise / thrown exception is the left injection of a sum.
    - The network is an explicit state: every [axios.get] steps the world
      and is recorded in the list of requests made so far. *)

From Stdlib Require Import String Ascii List Bool Arith ZArith Lia.
From Stdlib Require Import DecimalString DecimalNat.
Import ListNotations.

Local Open Scope string_scope.
Local Open Scope list_scope.
Local Open Scope nat_scope.

(* ================================================================== *)
(** ** JavaScript strings *)

Module JsString.

(** White space as [String.prototype.trim] and the regular expression
    class [\s] see it, among the code units below 256:
    TAB, LF, VT, FF, CR, SPACE and NBSP. *)
Definition isSpace (c : ascii) : bool :=
  let n := nat_of_ascii c in
  ((9 <=? n) && (n <=? 13)) || (n =? 32) || (n =? 160).

Fixpoint trimStart (s : string) : string :=
  match s with
  | EmptyString => EmptyString
  | String c r => if isSpace c then trimStart r else s
  end.

Fixpoint rev (s : string) : string :=
  match s with
  | EmptyString => EmptyString
  | String c r => (rev r ++ String c EmptyString)%string
  end.

Definition trimEnd (s : string) : string := rev (trimStart (rev s)).

(** [s.trim()] *)
Definition trim (s : string) : string := trimEnd (trimStart s).

(** [s.startsWith(p)] *)
Definition startsWith (s p : string) : bool := prefix p s.

(** [s.endsWith(p)] *)
Definition endsWith (s p : string) : bool :=
  (String.length p <=? String.length s)
  && (substring (String.length s - String.length p) (String.length p) s =? p)%string.

(** [s.includes(p)] *)
Definition includes (s p : string) : bool :=
  match index 0 p s with Some _ => true | None => false end.

(** [s.split(/\s+/)]: the pieces between maximal runs of white space.
    [cur] is the piece being read, reversed; [inrun] tells that the
    previous code unit was white space. *)
Fixpoint splitWsFrom (cur : string) (inrun : bool) (s : string) : list string :=
  match s with
  | EmptyString => [rev cur]
  | String c r =>
      if isSpace c
      then if inrun then splitWsFrom cur true r
           else rev cur :: splitWsFrom EmptyString true r
      else splitWsFrom (String c cur) false r
  end.

Definition splitWs (s : string) : list string := splitWsFrom EmptyString false s.

(** [String(n)] and template interpolation of a non-negative integer. *)
Definition ofNat (n : nat) : string := NilEmpty.string_of_uint (Nat.to_uint n).

Definition hexDigit (n : nat) : ascii :=
  if n <? 10 then ascii_of_nat (48 + n) else ascii_of_nat (55 + n).

Definition percent (b : nat) : string :=
  String "%" (String (hexDigit (b / 16)) (String (hexDigit (b mod 16)) EmptyString)).

(** Characters [encodeURIComponent] leaves alone:
    [A-Z a-z 0-9 - _ . ! ~ * ' ( )]. *)
Definition isUnreserved (c : ascii) : bool :=
  let n := nat_of_ascii c in
  ((65 <=? n) && (n <=? 90)) || ((97 <=? n) && (n <=? 122))
  || ((48 <=? n) && (n <=? 57))
  || (n =? 45) || (n =? 95) || (n =? 46) || (n =? 33) || (n =? 126)
  || (n =? 42) || (n =? 39) || (n =? 40) || (n =? 41).

(** [encodeURIComponent(s)]: every other code unit is replaced by the
    percent-escapes of its UTF-8 encoding (one byte below 128, two bytes
    from 128 to 255). *)
Fixpoint encodeURIComponent (s : string) : string :=
  match s with
  | EmptyString => EmptyString
  | String c r =>
      let n := nat_of_ascii c in
      String.append
        (if isUnreserved c then String c EmptyString
         else if n <? 128 then percent n
         else String.append (percent (192 + n / 64)) (percent (128 + n mod 64)))
        (encodeURIComponent r)
  end.

Definition isDigit (c : ascii) : bool :=
  (48 <=? nat_of_ascii c) && (nat_of_ascii c <=? 57).

(** [s.toLowerCase()] on code units below 256: the letters A-Z and the
    capital letters of Latin-1 (all of 192..222 but the multiplication
    sign) move up by 32. *)
Definition lowerChar (c : ascii) : ascii :=
  let n := nat_of_ascii c in
  if ((65 <=? n) && (n <=? 90))
     || ((192 <=? n) && (n <=? 214))
     || ((216 <=? n) && (n <=? 222))
  then ascii_of_nat (n + 32)
  else c.

Fixpoint toLowerCase (s : string) : string :=
  match s with
  | EmptyString => EmptyString
  | String c r => String (lowerChar c) (toLowerCase r)
  end.

(** JavaScript truthiness of a string: the empty string is falsy. *)
Definition truthy (s : string) : bool := negb (s =? "")%string.

(** Truthiness of [string | undefined]. *)
Definition truthyOpt (o : option string) : bool :=
  match o with Some s => truthy s | None => false end.

End JsString.

(* ================================================================== *)
(** ** JavaScript values and errors *)

(** What [response.data] can hold once axios has transformed the body. *)
Inductive JsValue : Type :=
| JsUndefined
| JsNull
| JsBool (b : bool)
| JsNumber (z : Z)
| JsStr (s : string)
| JsObject.

(** The test of [if (response.data)]. *)
Definition toBoolean (v : JsValue) : bool :=
  match v with
  | JsUndefined | JsNull => false
  | JsBool b => b
  | JsNumber z => negb (z =? 0)%Z
  | JsStr s => JsString.truthy s
  | JsObject => true
  end.

(** Thrown values.  [AxiosError] carries the fields [analyzeSeo] reads:
    [error.code], [error.response?.status] and [error.message]. *)
Inductive JsError : Type :=
| AxiosError (code : option string) (status : option Z) (message : string)
| PlainError (message : string).

Definition isAxiosError (e : JsError) : bool :=
  match e with AxiosError _ _ _ => true | PlainError _ => false end.

Definition errorMessage (e : JsError) : string :=
  match e with AxiosError _ _ m => m | PlainError m => m end.

(** The outcome of one awaited [axios.get]. *)
Inductive Outcome : Type :=
| Rejected (e : JsError)
| Responded (data : JsValue).

(* ================================================================== *)
(** ** The parsed document and the cheerio queries the analyzer makes *)

Module Dom.

#[local] Set Warnings "-register-all".

(** A node of the tree [cheerio.load] builds. *)
Inductive Node : Type :=
| Text (data : string)
| Comment (data : string)
| Element (name : string) (attribs : list (string * string)) (children : list Node).

(** The children of the document root. *)
Definition Document : Type := list Node.

(** A cheerio selection: matched nodes in document order. *)
Definition Selection : Type := list Node.

(** A node followed by its descendants, in document order. *)
Fixpoint subtree (n : Node) : list Node :=
  n :: match n with
       | Element _ _ children => flat_map subtree children
       | _ => []
       end.

(** The node list of a document. *)
Definition nodes (doc : Document) : list Node := flat_map subtree doc.

Fixpoint lookup (name : string) (attribs : list (string * string)) : option string :=
  match attribs with
  | [] => None
  | (k, v) :: rest => if (k =? name)%string then Some v else lookup name rest
  end.

Definition attribute (name : string) (n : Node) : option string :=
  match n with
  | Element _ attribs _ => lookup name attribs
  | _ => None
  end.

(** One bracket of a compound selector. *)
Inductive AttrTest : Type :=
| Has (name : string)               (* [name]         *)
| Equals (name value : string)      (* [name="value"] *)
| Begins (name value : string)      (* [name^="value"] *)
| Lacks (name : string).            (* :not([name])   *)

(** A compound selector: an optional tag name and its brackets. *)
Record Compound : Type := { tag : option string; tests : list AttrTest }.

(** A selector: comma-separated compounds. *)
Definition Selector : Type := list Compound.

(** The attributes whose values selectors compare without regard to
    case in an HTML document; the selector engine of cheerio lowercases
    both sides for them.  [rel] is one of them, [name] and [property] are
    not. *)
Definition caseInsensitiveAttributes : list string :=
  [ "accept"; "accept-charset"; "align"; "alink"; "axis"; "bgcolor"; "charset";
    "checked"; "clear"; "codetype"; "color"; "compact"; "declare"; "defer"; "dir";
    "direction"; "disabled"; "enctype"; "face"; "frame"; "hreflang"; "http-equiv";
    "lang"; "language"; "link"; "media"; "method"; "multiple"; "nohref"; "noresize";
    "noshade"; "nowrap"; "readonly"; "rel"; "rev"; "rules"; "scope"; "scrolling";
    "selected"; "shape"; "target"; "text"; "type"; "valign"; "valuetype"; "vlink" ].

Definition ignoresCase (name : string) : bool :=
  existsb (String.eqb name) caseInsensitiveAttributes.

(** The value of an attribute and the value in the selector, as the
    engine compares them. *)
Definition folded (name value : string) : string :=
  if ignoresCase name then JsString.toLowerCase value else value.

Definition holds (attribs : list (string * string)) (t : AttrTest) : bool :=
  match t with
  | Has a => match lookup a attribs with Some _ => true | None => false end
  | Equals a v =>
      match lookup a attribs with
      | Some x => (folded a x =? folded a v)%string
      | None => false
      end
  | Begins a v =>
      match lookup a attribs with
      | Some x => JsString.truthy v && prefix (folded a v) (folded a x)
      | None => false
      end
  | Lacks a => match lookup a attribs with Some _ => false | None => true end
  end.

Definition matchesCompound (c : Compound) (n : Node) : bool :=
  match n with
  | Element name attribs _ =>
      match tag c with Some t => (name =? t)%string | None => true end
      && forallb (holds attribs) (tests c)
  | _ => false
  end.

Definition matches (sel : Selector) (n : Node) : bool :=
  existsb (fun c => matchesCompound c n) sel.

(** The elements of the document a selector matches. *)
Definition select (sel : Selector) (doc : Document) : Selection :=
  filter (matches sel) (nodes doc).

(** [.text()] of one node: the text of its descendants. *)
Fixpoint textContent (n : Node) : string :=
  match n with
  | Text data => data
  | Comment _ => ""
  | Element _ _ children => String.concat "" (map textContent children)
  end.

(** [selection.text()] *)
Definition text (sel : Selection) : string := String.concat "" (map textContent sel).

(** [selection.attr(name)]: the attribute of the first matched element. *)
Definition attr (name : string) (sel : Selection) : option string :=
  match sel with
  | [] => None
  | n :: _ => attribute name n
  end.

(** Selectors of [analyzeSeo], as written in the source. *)
Definition byTag (t : string) : Compound := {| tag := Some t; tests := [] |}.
Definition withAttr (t : string) (test : AttrTest) : Compound :=
  {| tag := Some t; tests := [test] |}.

End Dom.

(* ================================================================== *)
(** ** Counting node visits *)

(** A computation that returns a value and adds to a running count of
    nodes visited; used to measure the scans the analysis makes. *)
Definition Scan (A : Type) : Type := nat -> A * nat.

Definition ret {A : Type} (a : A) : Scan A := fun k => (a, k).

Definition bind {A B : Type} (m : Scan A) (f : A -> Scan B) : Scan B :=
  fun k => f (fst (m k)) (snd (m k)).

Notation "x <- m ;; f" := (bind m (fun x => f))
  (at level 61, m at next level, right associativity).

(** [$(selector)]: one pass over the node list of the document. *)
Definition query (doc : Dom.Document) (sel : Dom.Selector) : Scan Dom.Selection :=
  fun k => (Dom.select sel doc, k + length (Dom.nodes doc)).

(** [selection.filter(callback)]: one pass over the selection. *)
Definition filterSel (p : Dom.Node -> bool) (sel : Dom.Selection) : Scan Dom.Selection :=
  fun k => (filter p sel, k + length sel).

Definition value {A : Type} (m : Scan A) : A := fst (m 0).
Definition visits {A : Type} (m : Scan A) : nat := snd (m 0).

(* ================================================================== *)
(** ** The analysis of a parsed document *)

Import JsString Dom.

Record SeoAnalysisResult : Type := {
  metaScore : Z;
  metaIssues : list string;
  contentScore : Z;
  contentIssues : list string;
  performanceScore : Z;
  performanceIssues : list string
}.

(** [issues.push(issue)] *)
Definition push (issues : list string) (issue : string) : list string :=
  issues ++ [issue].

(** [value?.trim()] *)
Definition trimOpt (o : option string) : option string := option_map trim o.

(** [value || ''] *)
Definition orEmpty (o : option string) : string :=
  match o with
  | Some s => if JsString.truthy s then s else ""
  | None => ""
  end.

(** [Math.max(0, 100 - (issues.length * penalty))] *)
Definition score (issues : list string) (penalty : Z) : Z :=
  Z.max 0 (100 - Z.of_nat (length issues) * penalty).

(** The callbacks given to [.filter]. *)
Definition withoutAlt (el : Node) : bool :=
  negb (truthyOpt (attr "alt" [el])).

Definition isExternal (url : string) (el : Node) : bool :=
  let href := orEmpty (attr "href" [el]) in
  startsWith href "http" && negb (includes href url).

Definition isLargeImage (el : Node) : bool :=
  let src := orEmpty (attr "src" [el]) in
  endsWith src ".jpg" || endsWith src ".png" || endsWith src ".gif".

(** The body of the [try] block of [analyzeSeo] after [cheerio.load]:
    the queries, the checks in source order and the three scores. *)
Definition analyzeDocument (url : string) (doc : Document) : Scan SeoAnalysisResult :=
  let S := query doc in
  (* Meta Tags Analysis *)
  let metaIssues : list string := [] in
  titleEls <- S [byTag "title"] ;;
  let title := trim (text titleEls) in
  descriptionEls <- S [withAttr "meta" (Equals "name" "description")] ;;
  let description := trimOpt (attr "content" descriptionEls) in
  keywordsEls <- S [withAttr "meta" (Equals "name" "keywords")] ;;
  let keywords := trimOpt (attr "content" keywordsEls) in
  robotsEls <- S [withAttr "meta" (Equals "name" "robots")] ;;
  let robots := trimOpt (attr "content" robotsEls) in
  canonicalEls <- S [withAttr "link" (Equals "rel" "canonical")] ;;
  let canonical := trimOpt (attr "href" canonicalEls) in
  viewportEls <- S [withAttr "meta" (Equals "name" "viewport")] ;;
  let viewport := trimOpt (attr "content" viewportEls) in
  charsetEls <- S [withAttr "meta" (Has "charset")] ;;
  let charset := trimOpt (attr "charset" charsetEls) in
  ogTags <- S [withAttr "meta" (Begins "property" "og:")] ;;
  twitterTags <- S [withAttr "meta" (Begins "name" "twitter:")] ;;

  let metaIssues :=
    if negb (JsString.truthy title) then push metaIssues "Missing title tag"
    else if String.length title <? 30
      then push metaIssues "Title is too short (should be at least 30 characters)"
    else if 60 <? String.length title
      then push metaIssues "Title is too long (should be less than 60 characters)"
    else metaIssues in

  let metaIssues :=
    match description with
    | None => push metaIssues "Missing meta description"
    | Some description =>
        if negb (JsString.truthy description) then push metaIssues "Missing meta description"
        else if String.length description <? 120
          then push metaIssues "Meta description is too short (should be at least 120 characters)"
        else if 160 <? String.length description
          then push metaIssues "Meta description is too long (should be less than 160 characters)"
        else metaIssues
    end in

  let metaIssues :=
    if negb (truthyOpt keywords) then push metaIssues "Missing meta keywords" else metaIssues in
  let metaIssues :=
    if negb (truthyOpt robots) then push metaIssues "Missing robots meta tag" else metaIssues in
  let metaIssues :=
    if negb (truthyOpt canonical) then push metaIssues "Missing canonical URL" else metaIssues in
  let metaIssues :=
    if negb (truthyOpt viewport) then push metaIssues "Missing viewport meta tag" else metaIssues in
  let metaIssues :=
    if negb (truthyOpt charset) then push metaIssues "Missing charset meta tag" else metaIssues in
  let metaIssues :=
    if length ogTags =? 0 then push metaIssues "Missing Open Graph tags" else metaIssues in
  let metaIssues :=
    if length twitterTags =? 0 then push metaIssues "Missing Twitter Card tags" else metaIssues in

  (* Content Analysis *)
  let contentIssues : list string := [] in
  h1Elements <- S [byTag "h1"] ;;
  let h1Count := length h1Elements in
  images <- S [byTag "img"] ;;
  links <- S [byTag "a"] ;;
  paragraphs <- S [byTag "p"] ;;
  bodyEls <- S [byTag "body"] ;;
  let wordCount := length (splitWs (trim (text bodyEls))) in
  headings <- S [byTag "h1"; byTag "h2"; byTag "h3"; byTag "h4"; byTag "h5"; byTag "h6"] ;;
  lists <- S [byTag "ul"; byTag "ol"] ;;
  tables <- S [byTag "table"] ;;
  iframes <- S [byTag "iframe"] ;;

  let contentIssues :=
    if h1Count =? 0 then push contentIssues "Missing H1 heading" else contentIssues in
  let contentIssues :=
    if 1 <? h1Count
    then push contentIssues "Multiple H1 headings detected (should have exactly one)"
    else contentIssues in

  imagesWithoutAltEls <- filterSel withoutAlt images ;;
  let imagesWithoutAlt := length imagesWithoutAltEls in
  let contentIssues :=
    if 0 <? imagesWithoutAlt
    then push contentIssues (ofNat imagesWithoutAlt ++ " images missing alt text")%string
    else contentIssues in

  externalLinkEls <- filterSel (isExternal url) links ;;
  let externalLinks := length externalLinkEls in

  let contentIssues :=
    if externalLinks =? 0
    then push contentIssues "No external links found (consider adding relevant outbound links)"
    else contentIssues in

  let contentIssues :=
    if wordCount <? 300
    then push contentIssues "Content length is too short (should be at least 300 words)"
    else contentIssues in

  let contentIssues :=
    if length paragraphs <? 3
    then push contentIssues "Too few paragraphs (should have at least 3 paragraphs)"
    else contentIssues in

  let contentIssues :=
    if length headings <? 2
    then push contentIssues "Too few headings (should use proper heading hierarchy)"
    else contentIssues in

  let contentIssues :=
    if length lists =? 0
    then push contentIssues "No lists found (consider using bullet points or numbered lists)"
    else contentIssues in

  let contentIssues :=
    if length tables =? 0
    then push contentIssues "No tables found (consider using tables for structured data)"
    else contentIssues in

  (* Performance Analysis *)
  let performanceIssues : list string := [] in
  cssFiles <- S [withAttr "link" (Equals "rel" "stylesheet")] ;;
  jsFiles <- S [withAttr "script" (Has "src")] ;;
  inlineStyles <- S [{| tag := None; tests := [Has "style"] |}] ;;
  inlineScripts <- S [withAttr "script" (Lacks "src")] ;;
  largeImages <- filterSel isLargeImage images ;;

  let performanceIssues :=
    if 5 <? length cssFiles
    then push performanceIssues
           ("High number of CSS files (" ++ ofNat (length cssFiles)
            ++ " found, recommend combining)")%string
    else performanceIssues in

  let performanceIssues :=
    if 10 <? length jsFiles
    then push performanceIssues
           ("High number of JavaScript files (" ++ ofNat (length jsFiles)
            ++ " found, recommend combining)")%string
    else performanceIssues in

  let performanceIssues :=
    if 5 <? length inlineStyles
    then push performanceIssues
           (ofNat (length inlineStyles)
            ++ " inline styles found (recommend using external CSS)")%string
    else performanceIssues in

  let performanceIssues :=
    if 5 <? length inlineScripts
    then push performanceIssues
           (ofNat (length inlineScripts)
            ++ " inline scripts found (recommend using external JS files)")%string
    else performanceIssues in

  let performanceIssues :=
    if 10 <? length largeImages
    then push performanceIssues
           (ofNat (length largeImages) ++ " large images found (recommend optimizing)")%string
    else performanceIssues in

  let performanceIssues :=
    if 2 <? length iframes
    then push performanceIssues
           (ofNat (length iframes)
            ++ " iframes found (consider reducing for better performance)")%string
    else performanceIssues in

  (* Calculate Scores *)
  let metaScore := score metaIssues 10 in
  let contentScore := score contentIssues 8 in
  let performanceScore := score performanceIssues 8 in

  ret {| metaScore := metaScore;
         metaIssues := metaIssues;
         contentScore := contentScore;
         contentIssues := contentIssues;
         performanceScore := performanceScore;
         performanceIssues := performanceIssues |}.

(** The analysis phase proper: the result, without the visit count. *)
Definition analysis (url : string) (doc : Document) : SeoAnalysisResult :=
  value (analyzeDocument url doc).

(* ================================================================== *)
(** ** Fetching through the proxies *)

(** The three proxy URL templates.  [encodeURIComponent] is total on the
    strings of this embedding, so building a proxy URL never throws. *)
Definition PROXY_SERVICES : list (string -> string) :=
  [ (fun url => "https://api.allorigins.win/raw?url=" ++ encodeURIComponent url)%string;
    (fun url => "https://corsproxy.io/?" ++ encodeURIComponent url)%string;
    (fun url => "https://api.codetabs.com/v1/proxy?quest=" ++ encodeURIComponent url)%string ].

Section Network.

(** The network: one awaited [axios.get] of a URL produces an outcome
    and a new state of the world. *)
Variable World : Type.
Variable axios_get : string -> World -> Outcome * World.

(** [cheerio.load(html)], which either throws or builds a document. *)
Variable cheerio_load : JsValue -> JsError + Document.

(** The world together with the requests made so far, oldest first. *)
Record Net : Type := { world : World; requests : list string }.

Definition get (proxyUrl : string) (s : Net) : Outcome * Net :=
  let (o, w) := axios_get proxyUrl (world s) in
  (o, {| world := w; requests := requests s ++ [proxyUrl] |}).

(** The [for ... of] loop of [fetchWithFallback] over the services that
    remain, with the current [lastError]; past the last service,
    [throw lastError || new Error('All proxy services failed')]. *)
Fixpoint fetchLoop (services : list (string -> string)) (url : string)
    (lastError : option JsError) (s : Net) : (JsError + JsValue) * Net :=
  match services with
  | [] =>
      (inl match lastError with
           | Some e => e
           | None => PlainError "All proxy services failed"
           end, s)
  | proxyService :: rest =>
      let proxyUrl := proxyService url in
      let (o, s') := get proxyUrl s in
      match o with
      | Responded data =>
          if toBoolean data then (inr data, s')
          else fetchLoop rest url lastError s'
      | Rejected error => fetchLoop rest url (Some error) s'
      end
  end.

Definition fetchWithFallback (url : string) (s : Net) : (JsError + JsValue) * Net :=
  fetchLoop PROXY_SERVICES url None s.

(** The [catch] block of [analyzeSeo]: the [Error] it throws for a
    caught value. *)
Definition rethrow (error : JsError) : JsError :=
  match error with
  | AxiosError code status message =>
      if match code with Some c => (c =? "ECONNABORTED")%string | None => false end
      then PlainError
             "Request timed out. Please try again or check if the website is accessible."
      else if match status with Some n => (n =? 404)%Z | None => false end
      then PlainError "Website not found. Please check if the URL is correct."
      else if match status with Some n => (n =? 403)%Z | None => false end
      then PlainError "Access denied. The website might be blocking automated requests."
      else PlainError ("Unable to analyze website: " ++ message)%string
  | PlainError _ =>
      PlainError
        "Failed to analyze website. Please check your internet connection and try again."
  end.

Definition analyzeSeo (url : string) (s : Net) : (JsError + SeoAnalysisResult) * Net :=
  let (fetched, s') := fetchWithFallback url s in
  match fetched with
  | inr html =>
      match cheerio_load html with
      | inr doc => (inr (analysis url doc), s')
      | inl error => (inl (rethrow error), s')
      end
  | inl error => (inl (rethrow error), s')
  end.

(** *** The component state and its handler *)

Record UiState : Type := {
  url : string;
  results : option SeoAnalysisResult;
  loading : bool;
  error : string
}.

Definition setResults (ui : UiState) (r : option SeoAnalysisResult) : UiState :=
  {| url := url ui; results := r; loading := loading ui; error := error ui |}.
Definition setLoading (ui : UiState) (b : bool) : UiState :=
  {| url := url ui; results := results ui; loading := b; error := error ui |}.
Definition setError (ui : UiState) (e : string) : UiState :=
  {| url := url ui; results := results ui; loading := loading ui; error := e |}.

Definition handleAnalysis (ui : UiState) (s : Net) : UiState * Net :=
  if negb (startsWith (url ui) "http://") && negb (startsWith (url ui) "https://")
  then (setError ui "Please enter a valid URL starting with http:// or https://", s)
  else
    let ui1 := setLoading ui true in
    let ui2 := setError ui1 "" in
    let ui3 := setResults ui2 None in
    let (outcome, s') := analyzeSeo (url ui) s in
    let ui4 :=
      match outcome with
      | inr analysisResults => setResults ui3 (Some analysisResults)
      | inl err => setError ui3 (errorMessage err)
      end in
    (setLoading ui4 false, s').

(** *** What the specification calls the attempts of one call *)

(** The outcomes the services would give if each were asked in turn,
    whatever the earlier ones answered. *)
Fixpoint outcomes (services : list (string -> string)) (url : string) (w : World)
  : list Outcome :=
  match services with
  | [] => []
  | proxyService :: rest =>
      let (o, w') := axios_get (proxyService url) w in
      o :: outcomes rest url w'
  end.

(** An attempt fails when it is rejected or answers with a falsy body. *)
Definition failed (o : Outcome) : bool :=
  match o with
  | Rejected _ => true
  | Responded data => negb (toBoolean data)
  end.

(** An attempt that answers without error but with a falsy body. *)
Definition emptyResponse (o : Outcome) : bool :=
  match o with
  | Rejected _ => false
  | Responded data => negb (toBoolean data)
  end.

(** The position and body of the first attempt that does not fail. *)
Fixpoint firstSuccess (os : list Outcome) : option (nat * JsValue) :=
  match os with
  | [] => None
  | o :: rest =>
      let later := option_map (fun kd => (S (fst kd), snd kd)) (firstSuccess rest) in
      match o with
      | Responded data => if toBoolean data then Some (0, data) else later
      | Rejected _ => later
      end
  end.

(** The request a call makes first, read off the record of requests. *)
Definition firstTried (url : string) (s : Net) : option string :=
  nth_error (requests (snd (fetchWithFallback url s))) (length (requests s)).

(** The error of the latest rejected attempt, if any. *)
Fixpoint lastRejection (os : list Outcome) (acc : option JsError) : option JsError :=
  match os with
  | [] => acc
  | Rejected e :: rest => lastRejection rest (Some e)
  | Responded _ :: rest => lastRejection rest acc
  end.

End Network.

Arguments Build_Net {World} world requests.
Arguments world {World} n.
Arguments requests {World} n.
Arguments get {World} axios_get proxyUrl s.
Arguments fetchLoop {World} axios_get services url lastError s.
Arguments fetchWithFallback {World} axios_get url s.
Arguments analyzeSeo {World} axios_get cheerio_load url s.
Arguments handleAnalysis {World} axios_get cheerio_load ui s.
Arguments outcomes {World} axios_get services url w.
Arguments firstTried {World} axios_get url s.

(** What the specification says of the proxies: of two calls in a row,
    the second does not start from the proxy the first started from. *)
Definition rotatesFirstProxy {World : Type}
    (axios_get : string -> World -> Outcome * World) : Prop :=
  forall (url : string) (s : Net World),
    firstTried axios_get url (snd (fetchWithFallback axios_get url s))
    <> firstTried axios_get url s.

(** *** Sample networks and documents *)

Definition timedOut : JsError :=
  AxiosError (Some "ECONNABORTED") None "timeout of 15000ms exceeded".

(** Every request times out. *)
Definition deadNetwork (proxyUrl : string) (w : unit) : Outcome * unit :=
  (Rejected timedOut, w).

(** Every request is answered with an empty body. *)
Definition emptyNetwork (proxyUrl : string) (w : unit) : Outcome * unit :=
  (Responded (JsStr ""), w).

(** The world counts the requests: the first is refused with status 403,
    the second is answered with an empty body, the later ones with a page. *)
Definition flakyNetwork (proxyUrl : string) (w : nat) : Outcome * nat :=
  (match w with
   | 0 => Rejected (AxiosError (Some "ERR_BAD_REQUEST") (Some 403%Z)
                      "Request failed with status code 403")
   | 1 => Responded (JsStr "")
   | _ => Responded (JsStr "<html><head><title>Example</title></head></html>")
   end, S w).

Definition sampleDoc : Document :=
  [ Element "html" []
      [ Element "head" []
          [ Element "title" [] [Text "  Hello world  "];
            Element "meta" [("name", "description"); ("content", "short")] [];
            Element "meta" [("charset", "utf-8")] [];
            Element "link" [("rel", "canonical"); ("href", "https://e.com/")] [] ];
        Element "body" []
          [ Element "h1" [] [Text "Head"];
            Element "p" []
              [ Text "some words here";
                Element "a" [("href", "https://other.org/x")] [Text "link"] ];
            Element "img" [("src", "a.png")] [];
            Element "ul" [] [Element "li" [] [Text "x"]] ] ] ].

(** What [cheerio.load] builds from an empty body. *)
Definition blankPage : Document :=
  [ Element "html" [] [ Element "head" [] []; Element "body" [] [] ] ].

(** A stand-in for [cheerio.load]: strings parse, other values throw. *)
Definition sampleLoad (v : JsValue) : JsError + Document :=
  match v with
  | JsStr _ => inr sampleDoc
  | _ => inl (PlainError "cheerio.load() expects a string")
  end.

Definition start {World : Type} (w : World) : Net World :=
  {| world := w; requests := [] |}.

(* ================================================================== *)
(** ** The checks as a table *)

(** A check of the rule set at a given document: whether it triggers
    and the issue it reports. *)
Record Check : Type := { triggered : bool; issue : string }.

(** The issues a table of checks reports, in table order. *)
Definition appended (checks : list Check) : list string :=
  flat_map (fun c => if triggered c then [issue c] else []) checks.

Definition shorterThan (n : nat) (o : option string) : bool :=
  match o with Some s => String.length s <? n | None => false end.

Definition longerThan (n : nat) (o : option string) : bool :=
  match o with Some s => n <? String.length s | None => false end.

(** The quantities the checks read from the document. *)
Definition titleOf (doc : Document) : string :=
  trim (text (select [byTag "title"] doc)).

Definition metaContent (name : string) (doc : Document) : option string :=
  trimOpt (attr "content" (select [withAttr "meta" (Equals "name" name)] doc)).

Definition wordCountOf (doc : Document) : nat :=
  length (splitWs (trim (text (select [byTag "body"] doc)))).

Definition listsOf (doc : Document) : Selection :=
  select [byTag "ul"; byTag "ol"] doc.

(** The thirteen metadata checks with the predicate each one tests.
    With [chained = false] every check stands alone on its own threshold;
    with [chained = true] the two "too short" checks also require that the
    "Missing" check before them in their [else if] chain did not trigger. *)
Definition metaChecks (chained : bool) (doc : Document) : list Check :=
  let title := titleOf doc in
  let description := metaContent "description" doc in
  [ {| triggered := negb (truthy title);
       issue := "Missing title tag" |};
    {| triggered := (negb chained || truthy title) && (String.length title <? 30);
       issue := "Title is too short (should be at least 30 characters)" |};
    {| triggered := 60 <? String.length title;
       issue := "Title is too long (should be less than 60 characters)" |};
    {| triggered := negb (truthyOpt description);
       issue := "Missing meta description" |};
    {| triggered := (negb chained || truthyOpt description) && shorterThan 120 description;
       issue := "Meta description is too short (should be at least 120 characters)" |};
    {| triggered := longerThan 160 description;
       issue := "Meta description is too long (should be less than 160 characters)" |};
    {| triggered := negb (truthyOpt (metaContent "keywords" doc));
       issue := "Missing meta keywords" |};
    {| triggered := negb (truthyOpt (metaContent "robots" doc));
       issue := "Missing robots meta tag" |};
    {| triggered :=
         negb (truthyOpt
                 (trimOpt (attr "href" (select [withAttr "link" (Equals "rel" "canonical")] doc))));
       issue := "Missing canonical URL" |};
    {| triggered := negb (truthyOpt (metaContent "viewport" doc));
       issue := "Missing viewport meta tag" |};
    {| triggered :=
         negb (truthyOpt
                 (trimOpt (attr "charset" (select [withAttr "meta" (Has "charset")] doc))));
       issue := "Missing charset meta tag" |};
    {| triggered := length (select [withAttr "meta" (Begins "property" "og:")] doc) =? 0;
       issue := "Missing Open Graph tags" |};
    {| triggered := length (select [withAttr "meta" (Begins "name" "twitter:")] doc) =? 0;
       issue := "Missing Twitter Card tags" |} ].

(** The nine content checks. *)
Definition contentChecks (url : string) (doc : Document) : list Check :=
  let h1Count := length (select [byTag "h1"] doc) in
  let imagesWithoutAlt := length (filter withoutAlt (select [byTag "img"] doc)) in
  let externalLinks := length (filter (isExternal url) (select [byTag "a"] doc)) in
  [ {| triggered := h1Count =? 0;
       issue := "Missing H1 heading" |};
    {| triggered := 1 <? h1Count;
       issue := "Multiple H1 headings detected (should have exactly one)" |};
    {| triggered := 0 <? imagesWithoutAlt;
       issue := (ofNat imagesWithoutAlt ++ " images missing alt text")%string |};
    {| triggered := externalLinks =? 0;
       issue := "No external links found (consider adding relevant outbound links)" |};
    {| triggered := wordCountOf doc <? 300;
       issue := "Content length is too short (should be at least 300 words)" |};
    {| triggered := length (select [byTag "p"] doc) <? 3;
       issue := "Too few paragraphs (should have at least 3 paragraphs)" |};
    {| triggered :=
         length (select [byTag "h1"; byTag "h2"; byTag "h3";
                         byTag "h4"; byTag "h5"; byTag "h6"] doc) <? 2;
       issue := "Too few headings (should use proper heading hierarchy)" |};
    {| triggered := length (listsOf doc) =? 0;
       issue := "No lists found (consider using bullet points or numbered lists)" |};
    {| triggered := length (select [byTag "table"] doc) =? 0;
       issue := "No tables found (consider using tables for structured data)" |} ].

(** The six performance checks. *)
Definition performanceChecks (doc : Document) : list Check :=
  let cssFiles := length (select [withAttr "link" (Equals "rel" "stylesheet")] doc) in
  let jsFiles := length (select [withAttr "script" (Has "src")] doc) in
  let inlineStyles := length (select [{| tag := None; tests := [Has "style"] |}] doc) in
  let inlineScripts := length (select [withAttr "script" (Lacks "src")] doc) in
  let largeImages := length (filter isLargeImage (select [byTag "img"] doc)) in
  let iframes := length (select [byTag "iframe"] doc) in
  [ {| triggered := 5 <? cssFiles;
       issue := ("High number of CSS files (" ++ ofNat cssFiles
                 ++ " found, recommend combining)")%string |};
    {| triggered := 10 <? jsFiles;
       issue := ("High number of JavaScript files (" ++ ofNat jsFiles
                 ++ " found, recommend combining)")%string |};
    {| triggered := 5 <? inlineStyles;
       issue := (ofNat inlineStyles
                 ++ " inline styles found (recommend using external CSS)")%string |};
    {| triggered := 5 <? inlineScripts;
       issue := (ofNat inlineScripts
                 ++ " inline scripts found (recommend using external JS files)")%string |};
    {| triggered := 10 <? largeImages;
       issue := (ofNat largeImages ++ " large images found (recommend optimizing)")%string |};
    {| triggered := 2 <? iframes;
       issue := (ofNat iframes
                 ++ " iframes found (consider reducing for better performance)")%string |} ].

(** Issues of which a list reports at most one. *)
Definition atMostOneOf (group issues : list string) : Prop :=
  forall a b, In a group -> In b group -> In a issues -> In b issues -> a = b.

Definition titleIssues : list string :=
  [ "Missing title tag";
    "Title is too short (should be at least 30 characters)";
    "Title is too long (should be less than 60 characters)" ].

Definition descriptionIssues : list string :=
  [ "Missing meta description";
    "Meta description is too short (should be at least 120 characters)";
    "Meta description is too long (should be less than 160 characters)" ].

Definition h1Issues : list string :=
  [ "Missing H1 heading";
    "Multiple H1 headings detected (should have exactly one)" ].

(* ================================================================== *)
(** ** The result cards and what the component renders *)

Module ResultCard.

(** [getScoreColor] of [ResultCard]. *)
Definition getScoreColor (score : Z) : string :=
  if (80 <=? score)%Z then "text-green-600"
  else if (60 <=? score)%Z then "text-yellow-600"
  else "text-red-600".

End ResultCard.

(** [{error && (...)}]: the error banner is rendered. *)
Definition errorShown (ui : UiState) : bool := truthy (error ui).

(** [{results && (...)}]: the three cards are rendered. *)
Definition resultsShown (ui : UiState) : bool :=
  match results ui with Some _ => true | None => false end.

(** [disabled={loading || !url}] *)
Definition buttonDisabled (ui : UiState) : bool := loading ui || negb (truthy (url ui)).

(** The guard of [handleAnalysis], negated. *)
Definition wellFormed (address : string) : bool :=
  startsWith address "http://" || startsWith address "https://".

(** The proxy URLs of a page, in the order of [PROXY_SERVICES]. *)
Definition proxyUrls (url : string) : list string :=
  map (fun proxyService => proxyService url) PROXY_SERVICES.

(** The component after an address was typed into the fresh form. *)
Definition typed (address : string) : UiState :=
  {| url := address; results := None; loading := false; error := "" |}.

(** *** Vocabulary for texts and URLs *)

Definition allSpace (s : string) : bool := forallb isSpace (list_ascii_of_string s).

(** A word: not empty and free of white space. *)
Definition isWord (s : string) : bool :=
  truthy s && forallb (fun c => negb (isSpace c)) (list_ascii_of_string s).

(** A separator: a non-empty run of white space. *)
Definition isSeparator (s : string) : bool := truthy s && allSpace s.

(** The first code unit of a string is not white space. *)
Definition startsBlack (s : string) : bool :=
  match s with
  | String c _ => negb (isSpace c)
  | EmptyString => false
  end.

(** A separator and a word, in [joinWords]. *)
Definition isPiece (piece : string * string) : bool :=
  isSeparator (fst piece) && isWord (snd piece).

(** Separators and words in turn. *)
Fixpoint joinWords (pieces : list (string * string)) : string :=
  match pieces with
  | [] => ""
  | (separator, word) :: rest => (separator ++ word ++ joinWords rest)%string
  end.

(** Characters that cannot end or split a query parameter. *)
Definition urlSafe (c : ascii) : bool := isUnreserved c || (c =? "%")%char.

(** *** Two extreme pages *)

Definition worstPage : Document :=
  [ Element "html" []
      [ Element "head" []
          (repeat (Element "link" [("rel", "stylesheet"); ("href", "a.css")] []) 6
           ++ repeat (Element "script" [("src", "a.js")] []) 11);
        Element "body" []
          (repeat (Element "img" [("src", "a.jpg"); ("style", "float:left")] []) 11
           ++ repeat (Element "script" [] []) 6
           ++ repeat (Element "iframe" [] []) 3) ] ].

Definition bestPage : Document :=
  [ Element "html" []
      [ Element "head" []
          [ Element "title" [] [Text "A page title of a comfortable length"];
            Element "meta"
              [("name", "description");
               ("content", String.concat " " (repeat "describing" 12))] [];
            Element "meta" [("name", "keywords"); ("content", "seo, audit")] [];
            Element "meta" [("name", "robots"); ("content", "index, follow")] [];
            Element "link" [("rel", "canonical"); ("href", "https://e.com/")] [];
            Element "meta" [("name", "viewport"); ("content", "width=device-width")] [];
            Element "meta" [("charset", "utf-8")] [];
            Element "meta" [("property", "og:title"); ("content", "A page")] [];
            Element "meta" [("name", "twitter:card"); ("content", "summary")] [] ];
        Element "body" []
          [ Element "h1" [] [Text "Heading"];
            Element "h2" [] [Text "Subheading"];
            Element "p" [] [Text (String.concat " " (repeat "word" 300))];
            Element "p" [] [Element "a" [("href", "https://other.org/")] [Text "elsewhere"]];
            Element "p" [] [Element "img" [("src", "a.svg"); ("alt", "a drawing")] []];
            Element "ul" [] [Element "li" [] [Text "item"]];
            Element "table" [] [] ] ] ].

(* ================================================================== *)
(** ** The embedding at work *)

Example encodeURIComponent_example :
  encodeURIComponent "https://a.b/c d?x=1&y" = "https%3A%2F%2Fa.b%2Fc%20d%3Fx%3D1%26y".
Proof. reflexivity. Qed.

Example trim_example : trim "  a b  " = "a b".
Proof. reflexivity. Qed.

Example splitWs_examples :
  splitWs "" = [""] /\ splitWs "a  b c" = ["a"; "b"; "c"] /\ splitWs " a " = [""; "a"; ""].
Proof. repeat split. Qed.

Example endsWith_includes_examples :
  endsWith "a.jpg" ".jpg" = true /\ endsWith "jpg" ".jpg" = false
  /\ includes "https://e.com/x" "https://e.com" = true /\ includes "abc" "" = true.
Proof. repeat split. Qed.

Example analysis_of_sampleDoc :
  analyzeDocument "https://e.com" sampleDoc 0
  = ({| metaScore := 30;
        metaIssues :=
          [ "Title is too short (should be at least 30 characters)";
            "Meta description is too short (should be at least 120 characters)";
            "Missing meta keywords";
            "Missing robots meta tag";
            "Missing viewport meta tag";
            "Missing Open Graph tags";
            "Missing Twitter Card tags" ];
        contentScore := 60;
        contentIssues :=
          [ "1 images missing alt text";
            "Content length is too short (should be at least 300 words)";
            "Too few paragraphs (should have at least 3 paragraphs)";
            "Too few headings (should use proper heading hierarchy)";
            "No tables found (consider using tables for structured data)" ];
        performanceScore := 100;
        performanceIssues := [] |}, 399).
Proof. vm_compute. reflexivity. Qed.

Example rel_is_compared_without_case :
  let page :=
    [ Element "html" []
        [ Element "head" []
            (Element "link" [("rel", "CANONICAL"); ("href", "https://e.com/")] []
             :: repeat (Element "link" [("rel", "StyleSheet"); ("href", "a.css")] []) 6);
          Element "body" [] [] ] ] in
  let r := analysis "https://e.com" page in
  performanceIssues r = ["High number of CSS files (6 found, recommend combining)"]
  /\ ~ In "Missing canonical URL" (metaIssues r).
Proof.
  cbv zeta. split; [vm_compute; reflexivity|].
  vm_compute. intros H. repeat (destruct H as [H|H]; [discriminate H|]). exact H.
Qed.

Example name_is_compared_with_case :
  let page :=
    [ Element "html" []
        [ Element "head" []
            [ Element "meta" [("name", "Keywords"); ("content", "seo")] [] ];
          Element "body" [] [] ] ] in
  In "Missing meta keywords" (metaIssues (analysis "https://e.com" page)).
Proof. vm_compute. tauto. Qed.

Example fetch_on_flakyNetwork :
  fetchWithFallback flakyNetwork "https://example.com" (start 0)
  = (inr (JsStr "<html><head><title>Example</title></head></html>"),
     {| world := 3;
        requests :=
          [ "https://api.allorigins.win/raw?url=https%3A%2F%2Fexample.com";
            "https://corsproxy.io/?https%3A%2F%2Fexample.com";
            "https://api.codetabs.com/v1/proxy?quest=https%3A%2F%2Fexample.com" ] |}).
Proof. reflexivity. Qed.

Example fetch_stops_at_first_answer :
  fetchWithFallback flakyNetwork "https://example.com" (start 2)
  = (inr (JsStr "<html><head><title>Example</title></head></html>"),
     {| world := 3;
        requests := [ "https://api.allorigins.win/raw?url=https%3A%2F%2Fexample.com" ] |}).
Proof. reflexivity. Qed.

Example handleAnalysis_on_deadNetwork :
  fst (handleAnalysis deadNetwork sampleLoad
         {| url := "https://example.com"; results := None; loading := false; error := "" |}
         (start tt))
  = {| url := "https://example.com"; results := None; loading := false;
       error := "Request timed out. Please try again or check if the website is accessible." |}.
Proof. reflexivity. Qed.

(* ================================================================== *)
(** ** Auxiliary facts *)

Lemma appended_app (a b : list Check) : appended (a ++ b) = appended a ++ appended b.
Proof. unfold appended. apply flat_map_app. Qed.

Lemma appended_length (cs : list Check) : length (appended cs) <= length cs.
Proof.
  induction cs as [|c cs IH]; simpl; [lia|].
  rewrite length_app. destruct (triggered c); simpl; lia.
Qed.

Lemma In_appended (s : string) (cs : list Check) :
  In s (appended cs) <-> exists c, In c cs /\ triggered c = true /\ issue c = s.
Proof.
  unfold appended. rewrite in_flat_map. split; intros [c [Hc H]]; exists c.
  - destruct (triggered c); simpl in H; intuition.
  - destruct H as [Ht Hi]. rewrite Ht. simpl. auto.
Qed.

(** [if (c) issues.push(s)] contributes one table row. *)
Lemma push_when (c : bool) (l : list string) (s : string) :
  (if c then push l s else l) = l ++ appended [ {| triggered := c; issue := s |} ].
Proof. destruct c; simpl; [reflexivity | now rewrite app_nil_r]. Qed.

(** The [if / else if / else if] chain on the title contributes three rows. *)
Lemma title_chain (t a b c : string) (l : list string) :
  (if negb (truthy t) then push l a
   else if String.length t <? 30 then push l b
   else if 60 <? String.length t then push l c
   else l)
  = l ++ appended [ {| triggered := negb (truthy t); issue := a |};
                    {| triggered := (negb true || truthy t) && (String.length t <? 30);
                       issue := b |};
                    {| triggered := 60 <? String.length t; issue := c |} ].
Proof.
  destruct t as [|ch r].
  - reflexivity.
  - cbn [truthy String.eqb negb orb andb].
    destruct (String.length (String ch r) <? 30) eqn:Hs;
      destruct (60 <? String.length (String ch r)) eqn:Hl;
      cbn [appended flat_map triggered issue app]; rewrite ?app_nil_r; try reflexivity.
    apply Nat.ltb_lt in Hs, Hl. lia.
Qed.

(** The same chain on the optional description. *)
Lemma description_chain (d : option string) (a b c : string) (l : list string) :
  match d with
  | Some description =>
      if negb (truthy description) then push l a
      else if String.length description <? 120 then push l b
      else if 160 <? String.length description then push l c
      else l
  | None => push l a
  end
  = l ++ appended [ {| triggered := negb (truthyOpt d); issue := a |};
                    {| triggered := (negb true || truthyOpt d) && shorterThan 120 d;
                       issue := b |};
                    {| triggered := longerThan 160 d; issue := c |} ].
Proof.
  destruct d as [[|ch r]|]; try reflexivity.
  cbn [truthyOpt truthy String.eqb negb orb andb shorterThan longerThan].
  destruct (String.length (String ch r) <? 120) eqn:Hs;
    destruct (160 <? String.length (String ch r)) eqn:Hl;
    cbn [appended flat_map triggered issue app]; rewrite ?app_nil_r; try reflexivity.
  apply Nat.ltb_lt in Hs, Hl. lia.
Qed.

Ltac unfold_analysis :=
  unfold analysis, value, analyzeDocument;
  cbv beta iota zeta delta
    [bind ret query filterSel fst snd
     metaScore metaIssues contentScore contentIssues performanceScore performanceIssues].

Ltac collect_rows :=
  rewrite ?title_chain, ?description_chain, ?push_when;
  rewrite ?app_nil_l, <- ?appended_app; reflexivity.

(** The metadata issues are the rows of the table that trigger. *)
Lemma metaIssues_appended (url : string) (doc : Document) :
  metaIssues (analysis url doc) = appended (metaChecks true doc).
Proof. unfold_analysis. collect_rows. Qed.

Lemma contentIssues_appended (url : string) (doc : Document) :
  contentIssues (analysis url doc) = appended (contentChecks url doc).
Proof. unfold_analysis. collect_rows. Qed.

Lemma performanceIssues_appended (url : string) (doc : Document) :
  performanceIssues (analysis url doc) = appended (performanceChecks doc).
Proof. unfold_analysis. collect_rows. Qed.

Lemma scores_of_issues (url : string) (doc : Document) :
  let r := analysis url doc in
  metaScore r = score (metaIssues r) 10
  /\ contentScore r = score (contentIssues r) 8
  /\ performanceScore r = score (performanceIssues r) 8.
Proof. repeat split. Qed.

Lemma appended_cons_length (c : Check) (cs : list Check) :
  length (appended (c :: cs)) = (if triggered c then 1 else 0) + length (appended cs).
Proof. cbn [appended flat_map]. rewrite length_app. now destruct (triggered c). Qed.

(** At most one row of the title chain triggers. *)
Lemma title_rows (t : string) :
  (if negb (truthy t) then 1 else 0)
  + ((if (negb true || truthy t) && (String.length t <? 30) then 1 else 0)
     + (if 60 <? String.length t then 1 else 0)) <= 1.
Proof.
  destruct t as [|ch r]; [reflexivity|].
  cbn [truthy String.eqb negb orb andb].
  destruct (String.length (String ch r) <? 30) eqn:Hs;
    destruct (60 <? String.length (String ch r)) eqn:Hl; try lia.
  apply Nat.ltb_lt in Hs, Hl. lia.
Qed.

(** At most one row of the description chain triggers. *)
Lemma description_rows (d : option string) :
  (if negb (truthyOpt d) then 1 else 0)
  + ((if (negb true || truthyOpt d) && shorterThan 120 d then 1 else 0)
     + (if longerThan 160 d then 1 else 0)) <= 1.
Proof.
  destruct d as [[|ch r]|]; try reflexivity.
  cbn [truthyOpt truthy String.eqb negb orb andb shorterThan longerThan].
  destruct (String.length (String ch r) <? 120) eqn:Hs;
    destruct (160 <? String.length (String ch r)) eqn:Hl; try lia.
  apply Nat.ltb_lt in Hs, Hl. lia.
Qed.

(** A page has no H1 or several, never both. *)
Lemma h1_rows (n : nat) :
  (if n =? 0 then 1 else 0) + (if 1 <? n then 1 else 0) <= 1.
Proof.
  destruct (n =? 0) eqn:H0; destruct (1 <? n) eqn:H1; try lia.
  apply Nat.eqb_eq in H0. apply Nat.ltb_lt in H1. lia.
Qed.

(** Replace every remaining row by a number that is at most one. *)
Ltac count_rows :=
  rewrite ?appended_cons_length; cbn [triggered appended flat_map length];
  repeat match goal with
         | |- context [if ?c then 1 else 0] =>
             let n := fresh "n" in
             let H := fresh "Hn" in
             assert (H : (if c then 1 else 0) <= 1) by (destruct c; lia);
             set (n := if c then 1 else 0) in *; clearbody n
         end;
  lia.

Lemma metaIssues_length (url : string) (doc : Document) :
  length (metaIssues (analysis url doc)) <= 9.
Proof.
  rewrite metaIssues_appended. unfold metaChecks.
  pose proof (title_rows (titleOf doc)).
  pose proof (description_rows (metaContent "description" doc)).
  cbv zeta. count_rows.
Qed.

Lemma contentIssues_length (url : string) (doc : Document) :
  length (contentIssues (analysis url doc)) <= 8.
Proof.
  rewrite contentIssues_appended. unfold contentChecks.
  pose proof (h1_rows (length (select [byTag "h1"] doc))).
  cbv zeta. count_rows.
Qed.

Lemma performanceIssues_length (url : string) (doc : Document) :
  length (performanceIssues (analysis url doc)) <= 6.
Proof.
  rewrite performanceIssues_appended. unfold performanceChecks.
  cbv zeta. count_rows.
Qed.

(** The decimal rendering of a number starts with a digit. *)
Lemma ofNat_head (n : nat) (rest : string) (c : ascii) (s : string) :
  (ofNat n ++ rest)%string = String c s -> isDigit c = true.
Proof.
  unfold ofNat. intros H.
  destruct (Nat.to_uint n) as [|d|d|d|d|d|d|d|d|d|d] eqn:E;
    try (cbn in H; injection H as <- _; reflexivity).
  exfalso.
  assert (Hn : n = 0) by (rewrite <- (Unsigned.of_to n), E; reflexivity).
  subst n. discriminate E.
Qed.

Lemma select_length (sel : Selector) (doc : Document) :
  length (select sel doc) <= length (nodes doc).
Proof. apply filter_length_le. Qed.

(** From [In s (appended table)] with a literal [s], keep the one row
    that reports [s] and leave the fact that it triggered. *)
Ltac find_row H :=
  apply In_appended in H;
  let c := fresh "c" in
  let Hc := fresh "Hc" in
  let Ht := fresh "Ht" in
  let Hi := fresh "Hi" in
  destruct H as [c [Hc [Ht Hi]]];
  cbv beta zeta delta [metaChecks contentChecks performanceChecks] in Hc;
  cbn [In] in Hc;
  repeat (destruct Hc as [Hc|Hc]); try contradiction;
  subst c; cbn [issue triggered] in Hi, Ht;
  try discriminate Hi;
  try (apply ofNat_head in Hi; discriminate Hi);
  clear Hi.

Ltac two_rows R :=
  repeat match goal with
         | Ht : ?c = true |- _ => rewrite Ht in R; clear Ht
         end;
  repeat match type of R with
         | context [if ?c then _ else _] => destruct c
         end;
  cbn in R; lia.

(* ================================================================== *)
(** ** Scoring *)

(** C1: for every analyzed document each score is 100 minus the fixed
    penalty of its dimension (10 for metadata, 8 for content, 8 for
    performance) times the number of issues reported in that dimension. *)
Theorem score_is_100_minus_penalty (url : string) (doc : Document) :
  let r := analysis url doc in
  metaScore r = (100 - 10 * Z.of_nat (length (metaIssues r)))%Z
  /\ contentScore r = (100 - 8 * Z.of_nat (length (contentIssues r)))%Z
  /\ performanceScore r = (100 - 8 * Z.of_nat (length (performanceIssues r)))%Z.
Proof.
  cbv zeta.
  pose proof (metaIssues_length url doc).
  pose proof (contentIssues_length url doc).
  pose proof (performanceIssues_length url doc).
  destruct (scores_of_issues url doc) as (-> & -> & ->).
  unfold score. repeat split; lia.
Qed.

(** C4: every score lies between 0 and 100; the issue lists have at most
    9, 8 and 6 entries, because at most one title issue, at most one
    description issue and at most one H1 issue is reported; hence the
    clamp at 0 never applies and the scores are at least 10, 36 and 52. *)
Theorem scores_bounded (url : string) (doc : Document) :
  let r := analysis url doc in
  ((0 <= metaScore r <= 100)%Z
   /\ (0 <= contentScore r <= 100)%Z
   /\ (0 <= performanceScore r <= 100)%Z)
  /\ (length (metaIssues r) <= 9
      /\ length (contentIssues r) <= 8
      /\ length (performanceIssues r) <= 6)
  /\ (atMostOneOf titleIssues (metaIssues r)
      /\ atMostOneOf descriptionIssues (metaIssues r)
      /\ atMostOneOf h1Issues (contentIssues r))
  /\ ((0 < 100 - Z.of_nat (length (metaIssues r)) * 10)%Z
      /\ (0 < 100 - Z.of_nat (length (contentIssues r)) * 8)%Z
      /\ (0 < 100 - Z.of_nat (length (performanceIssues r)) * 8)%Z)
  /\ ((10 <= metaScore r)%Z
      /\ (36 <= contentScore r)%Z
      /\ (52 <= performanceScore r)%Z).
Proof.
  cbv zeta.
  pose proof (metaIssues_length url doc) as Hm.
  pose proof (contentIssues_length url doc) as Hc.
  pose proof (performanceIssues_length url doc) as Hp.
  destruct (scores_of_issues url doc) as (Em & Ec & Ep).
  cbv zeta in Em, Ec, Ep. rewrite Em, Ec, Ep. unfold score.
  split; [|split; [|split; [|split]]]; try (repeat split; lia).
  clear. repeat split; intros a b Ha Hb Hia Hib.
  - pose proof (title_rows (titleOf doc)) as R.
    rewrite metaIssues_appended in Hia, Hib.
    cbn [In titleIssues] in Ha, Hb.
    destruct Ha as [<-|[<-|[<-|[]]]]; destruct Hb as [<-|[<-|[<-|[]]]];
      try reflexivity; exfalso; find_row Hia; find_row Hib; two_rows R.
  - pose proof (description_rows (metaContent "description" doc)) as R.
    rewrite metaIssues_appended in Hia, Hib.
    cbn [In descriptionIssues] in Ha, Hb.
    destruct Ha as [<-|[<-|[<-|[]]]]; destruct Hb as [<-|[<-|[<-|[]]]];
      try reflexivity; exfalso; find_row Hia; find_row Hib; two_rows R.
  - pose proof (h1_rows (length (select [byTag "h1"] doc))) as R.
    rewrite contentIssues_appended in Hia, Hib.
    cbn [In h1Issues] in Ha, Hb.
    destruct Ha as [<-|[<-|[]]]; destruct Hb as [<-|[<-|[]]];
      try reflexivity; exfalso; find_row Hia; find_row Hib; two_rows R.
Qed.

(* ================================================================== *)
(** ** The checks *)

(** C5, as the code has it: the three issue lists are exactly the rows of
    the three tables that trigger, in table order.  Every row is decided by
    its own predicate, except the two "too short" rows, which stand in an
    [else if] after the "Missing" check of the same tag and so also
    require that check not to have triggered.  The predicates of the
    metadata and performance rows read the document alone; among the
    content rows the one of 'No external links found' reads the analysed
    URL as well, and it is the only one: two URLs for which it agrees give
    the same content issues.  In particular 'Missing title tag' is
    reported iff the trimmed title is empty, and 'No lists found' iff the
    document has no [ul] or [ol] element. *)
Theorem checks_follow_tables (url : string) (doc : Document) :
  let r := analysis url doc in
  let externalLinks := fun u => length (filter (isExternal u) (select [byTag "a"] doc)) in
  metaIssues r = appended (metaChecks true doc)
  /\ contentIssues r = appended (contentChecks url doc)
  /\ performanceIssues r = appended (performanceChecks doc)
  /\ (forall url' : string,
        metaIssues (analysis url' doc) = metaIssues r
        /\ performanceIssues (analysis url' doc) = performanceIssues r
        /\ ((externalLinks url' =? 0) = (externalLinks url =? 0) ->
            contentIssues (analysis url' doc) = contentIssues r))
  /\ (In "Missing title tag" (metaIssues r) <-> titleOf doc = "")
  /\ (In "No lists found (consider using bullet points or numbered lists)" (contentIssues r)
      <-> length (listsOf doc) = 0).
Proof.
  cbv zeta.
  split; [apply metaIssues_appended|].
  split; [apply contentIssues_appended|].
  split; [apply performanceIssues_appended|].
  split.
  { intros url'. rewrite !metaIssues_appended, !performanceIssues_appended.
    split; [reflexivity|]. split; [reflexivity|].
    intros E. rewrite !contentIssues_appended. unfold contentChecks. cbv zeta.
    cbn [appended flat_map triggered issue]. now rewrite E. }
  split.
  - rewrite metaIssues_appended. split.
    + intros H. find_row H.
      destruct (titleOf doc); [reflexivity | discriminate Ht].
    + intros E. apply In_appended.
      exists {| triggered := negb (truthy (titleOf doc)); issue := "Missing title tag" |}.
      split; [left; reflexivity|]. split; [|reflexivity].
      cbn [triggered]. now rewrite E.
  - rewrite contentIssues_appended. split.
    + intros H. find_row H. now apply Nat.eqb_eq.
    + intros E. apply In_appended.
      exists {| triggered := length (listsOf doc) =? 0;
                issue := "No lists found (consider using bullet points or numbered lists)" |}.
      split; [|split; [|reflexivity]].
      * unfold contentChecks. cbn [In]. tauto.
      * cbn [triggered]. now apply Nat.eqb_eq.
Qed.

(** C5, as stated, fails on a page without a title: the trimmed title is
    empty, so the threshold of 'Title is too short' holds, yet that issue
    is not reported, because 'Missing title tag' was; the metadata issues
    are not the rows of the table of stand-alone predicates.  It also
    fails on one and the same document analysed under two URLs: its link
    to other.org is an external link for e.com and none for other.org, so
    'No external links found' is not decided by the document. *)
Lemma checks_not_independent :
  let doc : Document := blankPage in
  let r := analysis "https://example.com" doc in
  let noExternal := "No external links found (consider adding relevant outbound links)" in
  ((String.length (titleOf doc) <? 30) = true
   /\ In "Missing title tag" (metaIssues r)
   /\ ~ In "Title is too short (should be at least 30 characters)" (metaIssues r)
   /\ metaIssues r <> appended (metaChecks false doc))
  /\ (In noExternal (contentIssues (analysis "https://other.org" sampleDoc))
      /\ ~ In noExternal (contentIssues (analysis "https://e.com" sampleDoc))).
Proof.
  cbv zeta. split.
  - split; [reflexivity|]. split; [left; reflexivity|]. split.
    + vm_compute. intros H.
      repeat (destruct H as [H|H]; [discriminate H|]). exact H.
    + vm_compute. discriminate.
  - split.
    + vm_compute. tauto.
    + vm_compute. intros H.
      repeat (destruct H as [H|H]; [discriminate H|]). exact H.
Qed.

(* ================================================================== *)
(** ** What the visit count counts *)

(** The count kept by [Scan] charges the 22 selector queries with one
    pass over the node list each and the three [.filter] calls with one
    pass over their selection.  It does not charge [.text()], whose work
    on nested [title] or [body] elements is not linear in the number of
    nodes, nor any string operation; it is no measure of running time. *)
Lemma visits_of_queries_and_filters (url : string) (doc : Document) :
  visits (analyzeDocument url doc)
  = 22 * length (nodes doc)
    + 2 * length (select [byTag "img"] doc)
    + length (select [byTag "a"] doc).
Proof.
  unfold visits, analyzeDocument.
  cbv beta iota zeta delta [bind ret query filterSel fst snd]. lia.
Qed.

(* ================================================================== *)
(** ** Fetching *)

Section FetchFacts.

Variable World : Type.
Variable axios_get : string -> World -> Outcome * World.
Variable cheerio_load : JsValue -> JsError + Document.

Lemma firstSuccess_some (os : list Outcome) (k : nat) (body : JsValue) :
firstSuccess os = Some (k, body) ->
nth_error os k = Some (Responded body)
/\ toBoolean body = true
/\ forallb failed (firstn k os) = true.
Proof.
revert k. induction os as [|o rest IH]; intros k H; [discriminate H|].
cbn [firstSuccess] in H.
assert (Later : option_map (fun kd => (S (fst kd), snd kd)) (firstSuccess rest)
                = Some (k, body) ->
                failed o = true ->
                nth_error (o :: rest) k = Some (Responded body)
                /\ toBoolean body = true
                /\ forallb failed (firstn k (o :: rest)) = true).
{ intros E Ho. destruct (firstSuccess rest) as [[j d]|]; [|discriminate E].
  cbn in E. injection E as <- <-.
  destruct (IH j eq_refl) as (Hn & Hb & Hf).
  cbn [nth_error firstn forallb]. rewrite Ho, Hf. auto. }
destruct o as [e|data]; [now apply Later|].
destruct (toBoolean data) eqn:Hd.
- injection H as <- <-. cbn. auto.
- apply Later; [exact H|]. cbn. now rewrite Hd.
Qed.

Lemma firstSuccess_none (os : list Outcome) :
firstSuccess os = None <-> forallb failed os = true.
Proof.
induction os as [|o rest IH]; [cbn; tauto|].
cbn [firstSuccess forallb].
destruct (firstSuccess rest) as [[j d]|]; cbn [option_map];
  destruct o as [e|data]; cbn [failed]; try destruct (toBoolean data);
  cbn; split; intros H; try discriminate H; try reflexivity;
  try (now apply IH); try (destruct IH as [_ IH]; now apply IH in H).
Qed.

(** The loop against the list of outcomes: it stops at the first attempt
  that does not fail, having asked exactly the services up to it, or
  asks them all and throws. *)
Lemma fetchLoop_spec (services : list (string -> string)) (url : string) :
forall (lastError : option JsError) (s : Net World),
  let os := outcomes axios_get services url (world s) in
  let urls := map (fun proxyService => proxyService url) services in
  let result := fetchLoop axios_get services url lastError s in
  match firstSuccess os with
  | Some (k, body) =>
      fst result = inr body
      /\ requests (snd result) = requests s ++ firstn (S k) urls
  | None =>
      fst result
      = inl match lastRejection os lastError with
            | Some e => e
            | None => PlainError "All proxy services failed"
            end
      /\ requests (snd result) = requests s ++ urls
  end.
Proof.
induction services as [|proxyService rest IH]; intros lastError s.
- cbn. now rewrite app_nil_r.
- cbn [outcomes map fetchLoop]. unfold get.
  destruct (axios_get (proxyService url) (world s)) as [o w] eqn:E.
  set (s' := {| world := w; requests := requests s ++ [proxyService url] |}).
  assert (Next : forall le,
    match option_map (fun kd => (S (fst kd), snd kd))
                     (firstSuccess (outcomes axios_get rest url w)) with
    | Some (k, body) =>
        fst (fetchLoop axios_get rest url le s') = inr body
        /\ requests (snd (fetchLoop axios_get rest url le s'))
           = requests s ++ firstn (S k) (proxyService url :: map (fun p => p url) rest)
    | None =>
        fst (fetchLoop axios_get rest url le s')
        = inl match lastRejection (outcomes axios_get rest url w) le with
              | Some e => e
              | None => PlainError "All proxy services failed"
              end
        /\ requests (snd (fetchLoop axios_get rest url le s'))
           = requests s ++ proxyService url :: map (fun p => p url) rest
    end).
  { intros le. specialize (IH le s'). cbn zeta in IH.
    subst s'. cbn [world requests] in IH.
    destruct (firstSuccess (outcomes axios_get rest url w)) as [[k body]|];
      cbn [option_map fst snd firstn]; destruct IH as [-> ->];
      rewrite <- app_assoc; auto. }
  destruct o as [e|data]; cbv zeta; cbn [firstSuccess lastRejection].
  + apply Next.
  + destruct (toBoolean data); [cbn; auto | apply Next].
Qed.

Lemma outcomes_length (services : list (string -> string)) (url : string) (w : World) :
length (outcomes axios_get services url w) = length services.
Proof.
revert w. induction services as [|p rest IH]; intros w; [reflexivity|].
cbn [outcomes]. destruct (axios_get (p url) w). cbn. now rewrite IH.
Qed.

(** The three proxy URLs of one page are pairwise different. *)
Lemma proxy_urls_distinct (url : string) :
NoDup (map (fun proxyService => proxyService url) PROXY_SERVICES).
Proof.
cbn [map PROXY_SERVICES].
repeat constructor; cbn [In]; intros H;
  repeat (destruct H as [H|H]; [cbn in H; discriminate H|]); exact H.
Qed.

Lemma emptyResponse_failed (os : list Outcome) (lastError : option JsError) :
forallb emptyResponse os = true ->
forallb failed os = true /\ lastRejection os lastError = lastError.
Proof.
induction os as [|o rest IH]; [auto|].
cbn [forallb]. intros H. apply andb_prop in H as [Ho Hrest].
destruct o as [e|data]; [discriminate Ho|].
cbn [failed emptyResponse lastRejection] in *. rewrite Ho. now apply IH.
Qed.

Lemma rethrow_is_Error (e : JsError) : exists message, rethrow e = PlainError message.
Proof.
destruct e as [code status message|message]; cbn [rethrow]; [|eauto].
repeat match goal with |- context [if ?c then _ else _] => destruct c end; eauto.
Qed.

(** Every call leaves at least one request on record. *)
Lemma fetch_makes_a_request (url : string) (s : Net World) :
exists first later,
  requests (snd (fetchWithFallback axios_get url s)) = requests s ++ first :: later
  /\ first = ("https://api.allorigins.win/raw?url=" ++ encodeURIComponent url)%string.
Proof.
pose proof (fetchLoop_spec PROXY_SERVICES url None s) as H. cbv zeta in H.
fold (fetchWithFallback axios_get url s) in H.
destruct (firstSuccess (outcomes axios_get PROXY_SERVICES url (world s))) as [[k body]|];
  destruct H as [_ ->]; cbn [map PROXY_SERVICES firstn]; eauto.
Qed.

(** C2: one call asks the three proxies in list order, each at most once,
  and stops at the first attempt that answers with a truthy body, which
  it returns; the requests it made are exactly those up to that
  attempt. *)
Theorem fetch_in_order_until_first_success (url : string) (s : Net World) :
let urls := map (fun proxyService => proxyService url) PROXY_SERVICES in
let os := outcomes axios_get PROXY_SERVICES url (world s) in
let result := fetchWithFallback axios_get url s in
length PROXY_SERVICES = 3
/\ NoDup urls
/\ match firstSuccess os with
   | Some (k, body) =>
       k < 3
       /\ nth_error os k = Some (Responded body)
       /\ toBoolean body = true
       /\ forallb failed (firstn k os) = true
       /\ fst result = inr body
       /\ requests (snd result) = requests s ++ firstn (S k) urls
   | None =>
       forallb failed os = true
       /\ (exists e, fst result = inl e)
       /\ requests (snd result) = requests s ++ urls
   end.
Proof.
cbv zeta. split; [reflexivity|]. split; [apply proxy_urls_distinct|].
pose proof (fetchLoop_spec PROXY_SERVICES url None s) as H. cbv zeta in H.
fold (fetchWithFallback axios_get url s) in H.
destruct (firstSuccess (outcomes axios_get PROXY_SERVICES url (world s)))
  as [[k body]|] eqn:E.
- destruct (firstSuccess_some _ _ _ E) as (Hn & Hb & Hf).
  destruct H as [Hr Hq]. repeat split; auto.
  assert (Hk : k < length (outcomes axios_get PROXY_SERVICES url (world s))).
  { apply nth_error_Some. now rewrite Hn. }
  now rewrite outcomes_length in Hk.
- destruct H as [Hr Hq]. split; [now apply firstSuccess_none|]. split; eauto.
Qed.

(** C3: when all three attempts fail, [fetchWithFallback] throws the
  error of the latest rejected attempt, or 'All proxy services failed'
  when none was rejected, and [analyzeSeo] throws an [Error] in turn and
  returns no result. *)
Theorem all_proxies_failed_rejects (url : string) (s : Net World) :
let os := outcomes axios_get PROXY_SERVICES url (world s) in
let thrown := match lastRejection os None with
              | Some e => e
              | None => PlainError "All proxy services failed"
              end in
forallb failed os = true ->
fst (fetchWithFallback axios_get url s) = inl thrown
/\ fst (analyzeSeo axios_get cheerio_load url s) = inl (rethrow thrown)
/\ (exists message, rethrow thrown = PlainError message)
/\ (forall r, fst (analyzeSeo axios_get cheerio_load url s) <> inr r).
Proof.
cbv zeta. intros Hall.
pose proof (fetchLoop_spec PROXY_SERVICES url None s) as H. cbv zeta in H.
fold (fetchWithFallback axios_get url s) in H.
apply firstSuccess_none in Hall. rewrite Hall in H. destruct H as [Hr _].
assert (Ha : fst (analyzeSeo axios_get cheerio_load url s)
             = inl (rethrow match lastRejection
                                    (outcomes axios_get PROXY_SERVICES url (world s)) None with
                            | Some e => e
                            | None => PlainError "All proxy services failed"
                            end)).
{ unfold analyzeSeo. destruct (fetchWithFallback axios_get url s) as [fetched s'].
  cbn [fst] in Hr. now subst fetched. }
split; [exact Hr|]. split; [exact Ha|]. split; [apply rethrow_is_Error|].
intros r. rewrite Ha. discriminate.
Qed.

(** C6: when the page is fetched and parsed, [analyzeSeo] returns a
  record of exactly three scores, each next to the list of issues it is
  computed from. *)
Theorem fetched_page_gets_three_scores (url : string) (s : Net World)
  (html : JsValue) (doc : Document) :
fst (fetchWithFallback axios_get url s) = inr html ->
cheerio_load html = inr doc ->
exists mi ci pi : list string,
  fst (analyzeSeo axios_get cheerio_load url s)
  = inr {| metaScore := score mi 10;
           metaIssues := mi;
           contentScore := score ci 8;
           contentIssues := ci;
           performanceScore := score pi 8;
           performanceIssues := pi |}
  /\ mi = metaIssues (analysis url doc)
  /\ ci = contentIssues (analysis url doc)
  /\ pi = performanceIssues (analysis url doc).
Proof.
intros Hf Hl.
exists (metaIssues (analysis url doc)), (contentIssues (analysis url doc)),
       (performanceIssues (analysis url doc)).
split; [|auto].
unfold analyzeSeo. destruct (fetchWithFallback axios_get url s) as [fetched s'].
cbn [fst] in Hf. subst fetched. rewrite Hl. reflexivity.
Qed.

(** C7, as the code has it: there is no rotation.  Whatever calls came
  before, a call first asks the first proxy of the list. *)
Theorem every_call_starts_at_first_proxy (url : string) (s : Net World) :
firstTried axios_get url s
= Some ("https://api.allorigins.win/raw?url=" ++ encodeURIComponent url)%string
/\ firstTried axios_get url (snd (fetchWithFallback axios_get url s))
   = firstTried axios_get url s.
Proof.
assert (First : forall s0 : Net World,
          firstTried axios_get url s0
          = Some ("https://api.allorigins.win/raw?url=" ++ encodeURIComponent url)%string).
{ intros s0. unfold firstTried.
  destruct (fetch_makes_a_request url s0) as (first & later & -> & ->).
  rewrite nth_error_app2 by lia. now rewrite Nat.sub_diag. }
split; [apply First|]. now rewrite !First.
Qed.

(** C9: a response with a falsy body makes the loop go on to the next
  proxy with [lastError] as it was; when all three proxies answer so,
  all three are asked and the call throws 'All proxy services failed'. *)
Theorem falsy_body_counts_as_failure (url : string) (s : Net World) :
(forall (proxyService : string -> string) (rest : list (string -> string))
        (lastError : option JsError) (data : JsValue) (w : World),
    axios_get (proxyService url) (world s) = (Responded data, w) ->
    toBoolean data = false ->
    fetchLoop axios_get (proxyService :: rest) url lastError s
    = fetchLoop axios_get rest url lastError
        {| world := w; requests := requests s ++ [proxyService url] |})
/\ (forallb emptyResponse (outcomes axios_get PROXY_SERVICES url (world s)) = true ->
    fst (fetchWithFallback axios_get url s) = inl (PlainError "All proxy services failed")
    /\ requests (snd (fetchWithFallback axios_get url s))
       = requests s ++ map (fun proxyService => proxyService url) PROXY_SERVICES).
Proof.
split.
- intros proxyService rest lastError data w E Hd.
  cbn [fetchLoop]. unfold get. now rewrite E, Hd.
- intros Hall.
  destruct (emptyResponse_failed _ None Hall) as [Hf Hl].
  pose proof (fetchLoop_spec PROXY_SERVICES url None s) as H. cbv zeta in H.
  fold (fetchWithFallback axios_get url s) in H.
  apply firstSuccess_none in Hf. rewrite Hf, Hl in H. exact H.
Qed.

(** C10: for an address that starts neither with http:// nor with
  https://, [handleAnalysis] only sets the error message: results and
  loading flag stay as they were and the network state is untouched,
  whereas any call of [analyzeSeo] would have left a request on record. *)
Theorem invalid_url_is_refused (ui : UiState) (s : Net World) :
startsWith (url ui) "http://" = false ->
startsWith (url ui) "https://" = false ->
handleAnalysis axios_get cheerio_load ui s
= (setError ui "Please enter a valid URL starting with http:// or https://", s)
/\ error (fst (handleAnalysis axios_get cheerio_load ui s))
   = "Please enter a valid URL starting with http:// or https://"
/\ results (fst (handleAnalysis axios_get cheerio_load ui s)) = results ui
/\ loading (fst (handleAnalysis axios_get cheerio_load ui s)) = loading ui
/\ snd (handleAnalysis axios_get cheerio_load ui s) = s
/\ requests (snd (analyzeSeo axios_get cheerio_load (url ui) s)) <> requests s.
Proof.
intros H1 H2. unfold handleAnalysis. rewrite H1, H2. cbn [negb andb fst snd].
repeat split.
destruct (fetch_makes_a_request (url ui) s) as (first & later & E & _).
unfold analyzeSeo.
destruct (fetchWithFallback axios_get (url ui) s) as [fetched s'].
cbn [snd] in E.
assert (E' : requests s' <> requests s).
{ rewrite E. intros C. apply (f_equal (@length string)) in C.
  rewrite length_app in C. cbn in C. lia. }
destruct fetched as [e|html]; [exact E'|].
destruct (cheerio_load html); exact E'.
Qed.

End FetchFacts.

(** C7, as stated, fails already on a network where every request times
    out: the second of two calls in a row starts from the very proxy the
    first one started from. *)
Lemma no_rotation_between_calls : ~ rotatesFirstProxy deadNetwork.
Proof.
  intros H. apply (H "https://example.com" (start tt)). reflexivity.
Qed.

(** Three timeouts in a row: the timeout is rethrown as an [Error]. *)
Lemma all_proxies_failed_rejects_witness :
  forallb failed (outcomes deadNetwork PROXY_SERVICES "https://example.com" tt) = true
  /\ fst (fetchWithFallback deadNetwork "https://example.com" (start tt)) = inl timedOut
  /\ fst (analyzeSeo deadNetwork sampleLoad "https://example.com" (start tt))
     = inl (PlainError
              "Request timed out. Please try again or check if the website is accessible.").
Proof.
  split; [reflexivity|].
  destruct (all_proxies_failed_rejects unit deadNetwork sampleLoad
              "https://example.com" (start tt) eq_refl) as (Hf & Ha & _).
  split; [exact Hf | exact Ha].
Defined.

(** The third proxy answers with a page, which is parsed and scored. *)
Lemma fetched_page_gets_three_scores_witness :
  fst (fetchWithFallback flakyNetwork "https://example.com" (start 0))
  = inr (JsStr "<html><head><title>Example</title></head></html>")
  /\ exists mi ci pi : list string,
       fst (analyzeSeo flakyNetwork sampleLoad "https://example.com" (start 0))
       = inr {| metaScore := score mi 10;
                metaIssues := mi;
                contentScore := score ci 8;
                contentIssues := ci;
                performanceScore := score pi 8;
                performanceIssues := pi |}
       /\ mi = metaIssues (analysis "https://example.com" sampleDoc)
       /\ ci = contentIssues (analysis "https://example.com" sampleDoc)
       /\ pi = performanceIssues (analysis "https://example.com" sampleDoc).
Proof.
  split; [reflexivity|].
  apply (fetched_page_gets_three_scores nat flakyNetwork sampleLoad
           "https://example.com" (start 0)
           (JsStr "<html><head><title>Example</title></head></html>") sampleDoc);
    reflexivity.
Defined.

(** Three empty bodies in a row: all proxies are asked, then the call
    throws. *)
Lemma falsy_body_counts_as_failure_witness :
  forallb emptyResponse (outcomes emptyNetwork PROXY_SERVICES "https://example.com" tt) = true
  /\ fst (fetchWithFallback emptyNetwork "https://example.com" (start tt))
     = inl (PlainError "All proxy services failed")
  /\ requests (snd (fetchWithFallback emptyNetwork "https://example.com" (start tt)))
     = [ "https://api.allorigins.win/raw?url=https%3A%2F%2Fexample.com";
         "https://corsproxy.io/?https%3A%2F%2Fexample.com";
         "https://api.codetabs.com/v1/proxy?quest=https%3A%2F%2Fexample.com" ].
Proof.
  split; [reflexivity|].
  apply (proj2 (falsy_body_counts_as_failure unit emptyNetwork
                  "https://example.com" (start tt))).
  reflexivity.
Defined.

(** An address without a scheme is refused and no request is made. *)
Lemma invalid_url_is_refused_witness :
  let ui := {| url := "example.com"; results := None; loading := false; error := "" |} in
  startsWith (url ui) "http://" = false
  /\ startsWith (url ui) "https://" = false
  /\ handleAnalysis flakyNetwork sampleLoad ui (start 0)
     = (setError ui "Please enter a valid URL starting with http:// or https://", start 0).
Proof.
  cbv zeta. split; [reflexivity|]. split; [reflexivity|].
  apply (invalid_url_is_refused nat flakyNetwork sampleLoad
           {| url := "example.com"; results := None; loading := false; error := "" |}
           (start 0)); reflexivity.
Defined.

(* ================================================================== *)
(** ** Further properties of the analysis *)

Lemma scores_unclamped (url : string) (doc : Document) :
  metaScore (analysis url doc)
  = (100 - 10 * Z.of_nat (length (metaIssues (analysis url doc))))%Z
  /\ contentScore (analysis url doc)
     = (100 - 8 * Z.of_nat (length (contentIssues (analysis url doc))))%Z
  /\ performanceScore (analysis url doc)
     = (100 - 8 * Z.of_nat (length (performanceIssues (analysis url doc))))%Z.
Proof.
  pose proof (metaIssues_length url doc).
  pose proof (contentIssues_length url doc).
  pose proof (performanceIssues_length url doc).
  destruct (scores_of_issues url doc) as (Em & Ec & Ep). cbv zeta in Em, Ec, Ep.
  rewrite Em, Ec, Ep. unfold score. repeat split; lia.
Qed.

Lemma getScoreColor_bands (x : Z) :
  (ResultCard.getScoreColor x = "text-green-600" <-> (80 <= x)%Z)
  /\ (ResultCard.getScoreColor x = "text-yellow-600" <-> (60 <= x < 80)%Z)
  /\ (ResultCard.getScoreColor x = "text-red-600" <-> (x < 60)%Z).
Proof.
  unfold ResultCard.getScoreColor.
  destruct (80 <=? x)%Z eqn:H8; destruct (60 <=? x)%Z eqn:H6;
    try apply Z.leb_le in H8; try apply Z.leb_le in H6;
    try apply Z.leb_gt in H8; try apply Z.leb_gt in H6;
    (split; [|split]); split; intros Hx; try discriminate Hx; try reflexivity; lia.
Qed.

(** X1: the colour of each card in terms of the number of issues in it.
    A card is green up to two issues; the metadata card is yellow at three
    or four issues and red from five on; the content and performance
    cards are yellow at three to five and red from six on, which for the
    performance card means all six of its checks triggered. *)
Theorem card_colour_by_issue_count (url : string) (doc : Document) :
  let r := analysis url doc in
  let colour := ResultCard.getScoreColor in
  ((colour (metaScore r) = "text-green-600" <-> length (metaIssues r) <= 2)
   /\ (colour (metaScore r) = "text-yellow-600" <-> 3 <= length (metaIssues r) <= 4)
   /\ (colour (metaScore r) = "text-red-600" <-> 5 <= length (metaIssues r)))
  /\ ((colour (contentScore r) = "text-green-600" <-> length (contentIssues r) <= 2)
      /\ (colour (contentScore r) = "text-yellow-600" <-> 3 <= length (contentIssues r) <= 5)
      /\ (colour (contentScore r) = "text-red-600" <-> 6 <= length (contentIssues r)))
  /\ ((colour (performanceScore r) = "text-green-600"
       <-> length (performanceIssues r) <= 2)
      /\ (colour (performanceScore r) = "text-yellow-600"
          <-> 3 <= length (performanceIssues r) <= 5)
      /\ (colour (performanceScore r) = "text-red-600"
          <-> length (performanceIssues r) = 6)).
Proof.
  cbv zeta.
  pose proof (performanceIssues_length url doc) as Hp.
  destruct (scores_unclamped url doc) as (-> & -> & ->).
  repeat match goal with |- _ /\ _ => split end;
    first [ rewrite (proj1 (getScoreColor_bands _))
          | rewrite (proj1 (proj2 (getScoreColor_bands _)))
          | rewrite (proj2 (proj2 (getScoreColor_bands _))) ];
    lia.
Qed.

(** X2: the bounds on the scores are attained.  One page gets the lowest
    score of every dimension at once (10, 36 and 52) and one page gets 100
    three times, and every analysis lies between the two. *)
Theorem score_range_is_attained :
  exists (worst best : Document) (u : string),
    (metaScore (analysis u worst) = 10
     /\ contentScore (analysis u worst) = 36
     /\ performanceScore (analysis u worst) = 52)%Z
    /\ (metaScore (analysis u best) = 100
        /\ contentScore (analysis u best) = 100
        /\ performanceScore (analysis u best) = 100)%Z
    /\ forall (url : string) (doc : Document),
         let r := analysis url doc in
         (metaScore (analysis u worst) <= metaScore r <= metaScore (analysis u best)
          /\ contentScore (analysis u worst) <= contentScore r
             <= contentScore (analysis u best)
          /\ performanceScore (analysis u worst) <= performanceScore r
             <= performanceScore (analysis u best))%Z.
Proof.
  exists worstPage, bestPage, "https://e.com".
  assert (W : analysis "https://e.com" worstPage
              = {| metaScore := 10;
                   metaIssues := metaIssues (analysis "https://e.com" worstPage);
                   contentScore := 36;
                   contentIssues := contentIssues (analysis "https://e.com" worstPage);
                   performanceScore := 52;
                   performanceIssues :=
                     performanceIssues (analysis "https://e.com" worstPage) |})
    by (vm_compute; reflexivity).
  assert (B : analysis "https://e.com" bestPage
              = {| metaScore := 100; metaIssues := [];
                   contentScore := 100; contentIssues := [];
                   performanceScore := 100; performanceIssues := [] |})
    by (vm_compute; reflexivity).
  rewrite W, B. cbn [metaScore contentScore performanceScore].
  split; [auto|]. split; [auto|].
  intros url doc. cbv zeta.
  pose proof (metaIssues_length url doc).
  pose proof (contentIssues_length url doc).
  pose proof (performanceIssues_length url doc).
  destruct (scores_unclamped url doc) as (-> & -> & ->). lia.
Qed.

(** X3: the accepted lengths are closed intervals.  No title issue is
    reported exactly when the trimmed title has 30 to 60 characters, both
    ends included, and no description issue exactly when the page has a
    description whose trimmed content has 120 to 160 characters. *)
Theorem accepted_title_and_description_lengths (url : string) (doc : Document) :
  let r := analysis url doc in
  ((forall i, In i titleIssues -> ~ In i (metaIssues r))
   <-> 30 <= String.length (titleOf doc) <= 60)
  /\ ((forall i, In i descriptionIssues -> ~ In i (metaIssues r))
      <-> exists d, metaContent "description" doc = Some d
                    /\ 120 <= String.length d <= 160).
Proof.
  cbv zeta. rewrite metaIssues_appended. split; split.
  - intros H.
    destruct (titleOf doc) as [|ch t] eqn:E.
    + exfalso. apply (H "Missing title tag"); [left; reflexivity|].
      apply In_appended. eexists. split; [left; reflexivity|].
      cbn [triggered issue]. rewrite E. auto.
    + destruct (String.length (String ch t) <? 30) eqn:Hs.
      * exfalso.
        apply (H "Title is too short (should be at least 30 characters)");
          [right; left; reflexivity|].
        apply In_appended. eexists. split; [right; left; reflexivity|].
        cbn [triggered issue]. rewrite E, Hs. auto.
      * destruct (60 <? String.length (String ch t)) eqn:Hl.
        -- exfalso.
           apply (H "Title is too long (should be less than 60 characters)");
             [right; right; left; reflexivity|].
           apply In_appended. eexists. split; [right; right; left; reflexivity|].
           cbn [triggered issue]. rewrite E, Hl. auto.
        -- apply Nat.ltb_ge in Hs, Hl. lia.
  - intros Hlen i Hi Hin. cbn [In titleIssues] in Hi.
    destruct Hi as [<-|[<-|[<-|[]]]]; find_row Hin.
    + destruct (titleOf doc); [cbn in Hlen; lia | discriminate Ht].
    + apply andb_prop in Ht as [_ Ht]. apply Nat.ltb_lt in Ht. lia.
    + apply Nat.ltb_lt in Ht. lia.
  - intros H.
    destruct (metaContent "description" doc) as [[|ch t]|] eqn:E.
    + exfalso. apply (H "Missing meta description"); [left; reflexivity|].
      apply In_appended. eexists. split; [do 3 right; left; reflexivity|].
      cbn [triggered issue]. rewrite E. auto.
    + exists (String ch t). split; [reflexivity|].
      destruct (String.length (String ch t) <? 120) eqn:Hs.
      * exfalso.
        apply (H "Meta description is too short (should be at least 120 characters)");
          [right; left; reflexivity|].
        apply In_appended. eexists. split; [do 4 right; left; reflexivity|].
        cbn [triggered issue]. rewrite E. cbn [shorterThan]. rewrite Hs. auto.
      * destruct (160 <? String.length (String ch t)) eqn:Hl.
        -- exfalso.
           apply (H "Meta description is too long (should be less than 160 characters)");
             [right; right; left; reflexivity|].
           apply In_appended. eexists. split; [do 5 right; left; reflexivity|].
           cbn [triggered issue]. rewrite E. cbn [longerThan]. rewrite Hl. auto.
        -- apply Nat.ltb_ge in Hs, Hl. lia.
    + exfalso. apply (H "Missing meta description"); [left; reflexivity|].
      apply In_appended. eexists. split; [do 3 right; left; reflexivity|].
      cbn [triggered issue]. rewrite E. auto.
  - intros (d & E & Hlen) i Hi Hin. cbn [In descriptionIssues] in Hi.
    destruct Hi as [<-|[<-|[<-|[]]]]; find_row Hin; rewrite E in Ht;
      cbn [shorterThan longerThan] in Ht.
    + destruct d; [cbn in Hlen; lia | discriminate Ht].
    + apply andb_prop in Ht as [_ Ht]. apply Nat.ltb_lt in Ht. lia.
    + apply Nat.ltb_lt in Ht. lia.
Qed.

(* ================================================================== *)
(** ** Further properties of the fetch, of [analyzeSeo] and of the handler *)

Section HandlerFacts.

Variable World : Type.
Variable axios_get : string -> World -> Outcome * World.
Variable cheerio_load : JsValue -> JsError + Document.

(** Parsing and analysing touch the network no further. *)
Lemma analyzeSeo_network (url : string) (s : Net World) :
  snd (analyzeSeo axios_get cheerio_load url s) = snd (fetchWithFallback axios_get url s).
Proof.
  unfold analyzeSeo. destruct (fetchWithFallback axios_get url s) as [[e|html] s'];
    [reflexivity|]. now destruct (cheerio_load html).
Qed.

(** Whatever [analyzeSeo] throws went through its [catch] block, which
    caught what [fetchWithFallback] or [cheerio.load] threw. *)
Lemma analyzeSeo_rejection (url : string) (s : Net World) (e : JsError) :
  fst (analyzeSeo axios_get cheerio_load url s) = inl e ->
  exists caught,
    (fst (fetchWithFallback axios_get url s) = inl caught
     \/ exists html, fst (fetchWithFallback axios_get url s) = inr html
                     /\ cheerio_load html = inl caught)
    /\ e = rethrow caught.
Proof.
  unfold analyzeSeo. destruct (fetchWithFallback axios_get url s) as [[e1|html] s'].
  - cbn. intros [= <-]. eauto.
  - destruct (cheerio_load html) as [e1|doc] eqn:E; cbn; intros [= <-].
    exists e1. split; [right; eauto | reflexivity].
Qed.

(** The message the [catch] block chooses for a caught value. *)
Lemma rethrow_forms (caught : JsError) :
  exists message,
    rethrow caught = PlainError message
    /\ match caught with
       | AxiosError _ _ detail =>
           message
           = "Request timed out. Please try again or check if the website is accessible."
           \/ message = "Website not found. Please check if the URL is correct."
           \/ message = "Access denied. The website might be blocking automated requests."
           \/ message = ("Unable to analyze website: " ++ detail)%string
       | PlainError _ =>
           message
           = "Failed to analyze website. Please check your internet connection and try again."
       end
    /\ message <> ""
    /\ message <> "All proxy services failed".
Proof.
  destruct caught as [code status detail|m]; cbn [rethrow].
  - repeat match goal with |- context [if ?c then _ else _] => destruct c end;
      eexists; (split; [reflexivity|]); (split; [tauto|]); split; discriminate.
  - eexists. split; [reflexivity|]. split; [reflexivity|]. split; discriminate.
Qed.

Lemma guard_wellFormed (address : string) :
  negb (startsWith address "http://") && negb (startsWith address "https://")
  = negb (wellFormed address).
Proof. unfold wellFormed. now destruct (startsWith address "http://"). Qed.

(** One call makes one, two or three requests, the first ones of the
    list, and leaves the earlier record in place. *)
Lemma fetch_request_count (url : string) (s : Net World) :
  exists k, 1 <= k <= 3
            /\ requests (snd (fetchWithFallback axios_get url s))
               = requests s ++ firstn k (proxyUrls url).
Proof.
  pose proof (fetchLoop_spec World axios_get PROXY_SERVICES url None s) as H.
  cbv zeta in H. fold (fetchWithFallback axios_get url s) in H.
  destruct (firstSuccess (outcomes axios_get PROXY_SERVICES url (world s)))
    as [[k body]|] eqn:E.
  - destruct H as [_ H]. exists (S k). split; [|exact H].
    destruct (firstSuccess_some _ _ _ E) as (Hn & _ & _).
    assert (Hk : k < length (outcomes axios_get PROXY_SERVICES url (world s))).
    { apply nth_error_Some. now rewrite Hn. }
    rewrite outcomes_length in Hk. cbn in Hk. lia.
  - destruct H as [_ H]. exists 3. split; [lia | exact H].
Qed.

(** X4: every rejection of [analyzeSeo] is an [Error] made from what
    [fetchWithFallback] or [cheerio.load] threw.  For a caught axios error
    its message is one of three fixed messages or 'Unable to analyze
    website: ' followed by the message of that axios error; for any other
    caught value it is the message about the internet connection.  It is
    never empty and never 'All proxy services failed'. *)
Theorem analyzeSeo_error_messages (url : string) (s : Net World) (e : JsError) :
  fst (analyzeSeo axios_get cheerio_load url s) = inl e ->
  exists caught message,
    (fst (fetchWithFallback axios_get url s) = inl caught
     \/ exists html, fst (fetchWithFallback axios_get url s) = inr html
                     /\ cheerio_load html = inl caught)
    /\ e = PlainError message
    /\ match caught with
       | AxiosError _ _ detail =>
           message
           = "Request timed out. Please try again or check if the website is accessible."
           \/ message = "Website not found. Please check if the URL is correct."
           \/ message = "Access denied. The website might be blocking automated requests."
           \/ message = ("Unable to analyze website: " ++ detail)%string
       | PlainError _ =>
           message
           = "Failed to analyze website. Please check your internet connection and try again."
       end
    /\ message <> ""
    /\ message <> "All proxy services failed".
Proof.
  intros H. apply analyzeSeo_rejection in H as (caught & Hc & ->).
  destruct (rethrow_forms caught) as (message & -> & Hm).
  exists caught, message. auto.
Qed.

(** The handler on an address with a scheme. *)
Lemma handleAnalysis_wellFormed (ui : UiState) (s : Net World) :
  wellFormed (url ui) = true ->
  let out := analyzeSeo axios_get cheerio_load (url ui) s in
  let ui' := fst (handleAnalysis axios_get cheerio_load ui s) in
  snd (handleAnalysis axios_get cheerio_load ui s) = snd out
  /\ url ui' = url ui
  /\ loading ui' = false
  /\ match fst out with
     | inr r => results ui' = Some r /\ error ui' = ""
     | inl e => results ui' = None /\ error ui' = errorMessage e /\ error ui' <> ""
     end.
Proof.
  intros Hw. cbv zeta. unfold handleAnalysis. rewrite guard_wellFormed, Hw. cbn [negb].
  pose proof (analyzeSeo_rejection (url ui) s) as Hm.
  destruct (analyzeSeo axios_get cheerio_load (url ui) s) as [[e|r] s'];
    cbn [fst snd setLoading setResults setError url results loading error]; auto.
  repeat split.
  destruct (Hm e eq_refl) as (caught & _ & ->).
  destruct (rethrow_forms caught) as (message & -> & _ & Hne & _). exact Hne.
Qed.

(** X5: for an address with a scheme the handler ends with one of two
    states, on the network state [analyzeSeo] left: the results of the
    analysis and no error, or no results and the message of the thrown
    error, which is not empty.  In both [loading] is false again. *)
Theorem handleAnalysis_settles (ui : UiState) (s : Net World) :
  wellFormed (url ui) = true ->
  let out := analyzeSeo axios_get cheerio_load (url ui) s in
  let ui' := fst (handleAnalysis axios_get cheerio_load ui s) in
  snd (handleAnalysis axios_get cheerio_load ui s) = snd out
  /\ url ui' = url ui
  /\ loading ui' = false
  /\ match fst out with
     | inr r => results ui' = Some r /\ error ui' = ""
     | inl e => results ui' = None /\ error ui' = errorMessage e /\ error ui' <> ""
     end.
Proof. exact (handleAnalysis_wellFormed ui s). Qed.

(** X6: after a click on the enabled button something is always shown,
    the error banner or the cards, and the button is enabled again.  The
    banner and the cards are shown together only when an address without a
    scheme was entered while earlier results were on display. *)
Theorem something_is_shown_after_a_click (ui : UiState) (s : Net World) :
  buttonDisabled ui = false ->
  let ui' := fst (handleAnalysis axios_get cheerio_load ui s) in
  errorShown ui' || resultsShown ui' = true
  /\ (errorShown ui' && resultsShown ui' = true
      <-> wellFormed (url ui) = false /\ resultsShown ui = true)
  /\ buttonDisabled ui' = false.
Proof.
  intros Hb. cbv zeta.
  unfold buttonDisabled in Hb. apply orb_false_elim in Hb as [Hl Hu].
  assert (Finish : forall a b c d : bool,
            (a = true -> b = true -> c = false /\ d = true) ->
            (c = false -> d = true -> a = true /\ b = true) ->
            (a = true \/ b = true) ->
            a || b = true /\ (a && b = true <-> c = false /\ d = true)).
  { intros [|] [|] [|] [|] F G [X|X]; split; try reflexivity; try discriminate X;
      split; intros Y; try exact (F eq_refl eq_refl); try reflexivity;
      try discriminate Y; try (destruct Y; discriminate);
      try (destruct (G eq_refl eq_refl); discriminate). }
  destruct (wellFormed (url ui)) eqn:Hw.
  - destruct (handleAnalysis_wellFormed ui s Hw) as (_ & Eu & El & Hr). cbv zeta in Hr.
    rewrite <- and_assoc. split.
    + apply Finish; unfold errorShown, resultsShown;
        destruct (fst (analyzeSeo axios_get cheerio_load (url ui) s)) as [e|r].
      * destruct Hr as (-> & _). discriminate.
      * destruct Hr as (_ & ->). discriminate.
      * discriminate.
      * discriminate.
      * destruct Hr as (_ & _ & Hne). left.
        destruct (error (fst (handleAnalysis axios_get cheerio_load ui s)));
          [congruence | reflexivity].
      * destruct Hr as (-> & _). now right.
    + unfold buttonDisabled. now rewrite Eu, El, Hu.
  - unfold handleAnalysis. rewrite guard_wellFormed, Hw. cbn [negb fst].
    rewrite <- and_assoc. split.
    + apply Finish; unfold errorShown, resultsShown;
        cbn [setError url results loading error]; auto.
    + unfold buttonDisabled. cbn [setError url results loading error].
      now rewrite Hl, Hu.
Qed.

(** X7: a click costs at most three requests, the first ones of the
    proxy list for the address entered, added to the record of earlier
    requests; it costs none when the address has no scheme. *)
Theorem requests_per_click (ui : UiState) (s : Net World) :
  exists k,
    k <= 3
    /\ requests (snd (handleAnalysis axios_get cheerio_load ui s))
       = requests s ++ firstn k (proxyUrls (url ui))
    /\ (wellFormed (url ui) = false -> k = 0).
Proof.
  destruct (wellFormed (url ui)) eqn:Hw.
  - destruct (handleAnalysis_wellFormed ui s Hw) as (-> & _).
    rewrite analyzeSeo_network.
    destruct (fetch_request_count (url ui) s) as (k & Hk & ->).
    exists k. split; [lia|]. split; [reflexivity | discriminate].
  - exists 0. unfold handleAnalysis. rewrite guard_wellFormed, Hw. cbn.
    rewrite app_nil_r. repeat split; auto.
Qed.

(** X8: when every proxy fails, the handler clears the results and shows
    the message chosen from the error caught last; when no attempt was
    rejected, that is when every body was empty, it shows the message
    about the internet connection. *)
Theorem failure_message_shown (ui : UiState) (s : Net World) :
  let os := outcomes axios_get PROXY_SERVICES (url ui) (world s) in
  let ui' := fst (handleAnalysis axios_get cheerio_load ui s) in
  wellFormed (url ui) = true ->
  forallb failed os = true ->
  results ui' = None
  /\ loading ui' = false
  /\ error ui'
     = match lastRejection os None with
       | Some e => errorMessage (rethrow e)
       | None =>
           "Failed to analyze website. Please check your internet connection and try again."
       end.
Proof.
  cbv zeta. intros Hw Hall.
  destruct (handleAnalysis_wellFormed ui s Hw) as (_ & _ & El & Hr). cbv zeta in Hr.
  assert (Ha : fst (analyzeSeo axios_get cheerio_load (url ui) s)
               = inl (rethrow match lastRejection
                                      (outcomes axios_get PROXY_SERVICES (url ui) (world s))
                                      None with
                              | Some e => e
                              | None => PlainError "All proxy services failed"
                              end)).
  { pose proof (fetchLoop_spec World axios_get PROXY_SERVICES (url ui) None s) as H.
    cbv zeta in H. fold (fetchWithFallback axios_get (url ui) s) in H.
    apply firstSuccess_none in Hall. rewrite Hall in H. destruct H as [H _].
    unfold analyzeSeo.
    destruct (fetchWithFallback axios_get (url ui) s) as [fetched s'].
    cbn [fst] in H. now subst fetched. }
  rewrite Ha in Hr. destruct Hr as (-> & -> & _). split; [reflexivity|].
  split; [exact El|].
  now destruct (lastRejection (outcomes axios_get PROXY_SERVICES (url ui) (world s)) None).
Qed.

End HandlerFacts.

(** Three timeouts: the rejection carries the message about the timeout. *)
Lemma analyzeSeo_error_messages_witness :
  fst (analyzeSeo deadNetwork sampleLoad "https://example.com" (start tt))
  = inl (PlainError
           "Request timed out. Please try again or check if the website is accessible.")
  /\ exists message,
       PlainError "Request timed out. Please try again or check if the website is accessible."
       = PlainError message
       /\ message <> ""
       /\ message <> "All proxy services failed".
Proof.
  split; [reflexivity|].
  destruct (analyzeSeo_error_messages unit deadNetwork sampleLoad
              "https://example.com" (start tt) _ eq_refl)
    as (caught & message & _ & E & _ & H1 & H2).
  exists message. auto.
Defined.

(** The third proxy answers: the results are stored and no error is set. *)
Lemma handleAnalysis_settles_witness :
  wellFormed (url (typed "https://example.com")) = true
  /\ loading (fst (handleAnalysis flakyNetwork sampleLoad
                     (typed "https://example.com") (start 0))) = false
  /\ snd (handleAnalysis flakyNetwork sampleLoad (typed "https://example.com") (start 0))
     = snd (analyzeSeo flakyNetwork sampleLoad "https://example.com" (start 0)).
Proof.
  split; [reflexivity|].
  destruct (handleAnalysis_settles nat flakyNetwork sampleLoad
              (typed "https://example.com") (start 0) eq_refl) as (Hn & _ & Hl & _).
  split; [exact Hl | exact Hn].
Defined.

(** A click with a proper address on a dead network: the banner alone. *)
Lemma something_is_shown_after_a_click_witness :
  buttonDisabled (typed "https://example.com") = false
  /\ buttonDisabled (fst (handleAnalysis deadNetwork sampleLoad
                            (typed "https://example.com") (start tt))) = false
  /\ errorShown (fst (handleAnalysis deadNetwork sampleLoad
                        (typed "https://example.com") (start tt)))
     || resultsShown (fst (handleAnalysis deadNetwork sampleLoad
                             (typed "https://example.com") (start tt))) = true.
Proof.
  split; [reflexivity|].
  destruct (something_is_shown_after_a_click unit deadNetwork sampleLoad
              (typed "https://example.com") (start tt) eq_refl) as (Hs & _ & Hb).
  split; [exact Hb | exact Hs].
Defined.

(** Three empty bodies: the message about the internet connection. *)
Lemma failure_message_shown_witness :
  wellFormed (url (typed "https://example.com")) = true
  /\ forallb failed (outcomes emptyNetwork PROXY_SERVICES "https://example.com" tt) = true
  /\ error (fst (handleAnalysis emptyNetwork sampleLoad
                   (typed "https://example.com") (start tt)))
     = "Failed to analyze website. Please check your internet connection and try again.".
Proof.
  split; [reflexivity|]. split; [reflexivity|].
  destruct (failure_message_shown unit emptyNetwork sampleLoad
              (typed "https://example.com") (start tt) eq_refl eq_refl) as (_ & _ & He).
  exact He.
Defined.

(* ================================================================== *)
(** ** Further properties of the string work *)

Lemma str_app_nil_r (s : string) : (s ++ "")%string = s.
Proof. induction s as [|c s IH]; cbn; [reflexivity | now rewrite IH]. Qed.

Lemma str_app_assoc (a b c : string) : ((a ++ b) ++ c)%string = (a ++ (b ++ c))%string.
Proof. induction a as [|x a IH]; cbn; [reflexivity | now rewrite IH]. Qed.

Lemma chars_app (a b : string) :
  list_ascii_of_string (a ++ b) = list_ascii_of_string a ++ list_ascii_of_string b.
Proof. induction a as [|x a IH]; cbn; [reflexivity | now rewrite IH]. Qed.

Lemma rev_app (a b : string) : rev (a ++ b) = (rev b ++ rev a)%string.
Proof.
  induction a as [|x a IH]; cbn.
  - now rewrite str_app_nil_r.
  - now rewrite IH, str_app_assoc.
Qed.

Lemma rev_involutive (s : string) : rev (rev s) = s.
Proof. induction s as [|x s IH]; cbn; [reflexivity|]. now rewrite rev_app, IH. Qed.

Lemma allSpace_app (a b : string) : allSpace (a ++ b) = allSpace a && allSpace b.
Proof. unfold allSpace. now rewrite chars_app, forallb_app. Qed.

Lemma allSpace_rev (s : string) : allSpace (rev s) = allSpace s.
Proof.
  induction s as [|x s IH]; [reflexivity|].
  cbn [rev]. rewrite allSpace_app, IH. unfold allSpace. cbn.
  rewrite andb_true_r. apply andb_comm.
Qed.

Lemma trimStart_spaces (a b : string) :
  allSpace a = true -> trimStart (a ++ b) = trimStart b.
Proof.
  induction a as [|x a IH]; [reflexivity|].
  unfold allSpace. cbn. intros H. apply andb_prop in H as [-> H]. now apply IH.
Qed.


Lemma trimStart_black (s : string) : startsBlack s = true -> trimStart s = s.
Proof.
  destruct s as [|c s]; [reflexivity|]. cbn. intros H.
  now destruct (isSpace c).
Qed.

Lemma startsBlack_app (a b : string) :
  startsBlack a = true -> startsBlack (a ++ b) = true.
Proof. now destruct a. Qed.

Lemma word_black (w : string) : isWord w = true -> startsBlack w = true.
Proof.
  unfold isWord. destruct w as [|c w]; [discriminate|]. cbn.
  intros H. now apply andb_prop in H as [H _].
Qed.

(** A word ends with a code unit that is not white space. *)
Lemma word_rev_black (w : string) : isWord w = true -> startsBlack (rev w) = true.
Proof.
  unfold isWord. induction w as [|c w IH]; [discriminate|].
  cbn. intros H. apply andb_prop in H as [Hc Hw].
  destruct w as [|d w]; [exact Hc|].
  apply startsBlack_app. apply IH. cbn. exact Hw.
Qed.

Lemma joinWords_rev_black (pieces : list (string * string)) :
  forallb isPiece pieces = true -> pieces <> [] ->
  startsBlack (rev (joinWords pieces)) = true.
Proof.
  induction pieces as [|[separator word] rest IH]; [congruence|].
  cbn [forallb joinWords]. intros H _. apply andb_prop in H as [Hp Hrest].
  apply andb_prop in Hp as [_ Hw]. cbn [snd] in Hw.
  rewrite !rev_app. apply startsBlack_app.
  destruct rest as [|piece rest'].
  - cbn. now apply word_rev_black.
  - apply startsBlack_app. apply IH; [exact Hrest | discriminate].
Qed.

(** Trimming removes the white space around a text that starts and ends
    with other code units, and nothing else. *)
Lemma trim_padding (lead body trail : string) :
  allSpace lead = true -> allSpace trail = true ->
  startsBlack body = true -> startsBlack (rev body) = true ->
  trim (lead ++ body ++ trail) = body.
Proof.
  intros Hl Ht Hb Hr. unfold trim, trimEnd.
  rewrite trimStart_spaces by exact Hl.
  rewrite (trimStart_black (body ++ trail)) by now apply startsBlack_app.
  rewrite rev_app, trimStart_spaces by now rewrite allSpace_rev.
  rewrite trimStart_black by exact Hr. apply rev_involutive.
Qed.

Lemma trim_blank (s : string) : allSpace s = true -> trim s = "".
Proof.
  intros H. unfold trim, trimEnd.
  rewrite <- (str_app_nil_r s), trimStart_spaces by exact H. reflexivity.
Qed.

(** Reading a word moves it, reversed, onto the piece being read. *)
Lemma split_word (w : string) :
  forall (cur : string) (inrun : bool) (rest : string),
    forallb (fun c => negb (isSpace c)) (list_ascii_of_string w) = true ->
    splitWsFrom cur inrun (w ++ rest)
    = splitWsFrom (rev w ++ cur) (match w with EmptyString => inrun | _ => false end) rest.
Proof.
  induction w as [|c w IH]; intros cur inrun rest H; [reflexivity|].
  cbn in H. apply andb_prop in H as [Hc Hw].
  cbn [String.append splitWsFrom rev].
  destruct (isSpace c); [discriminate Hc|].
  rewrite IH by exact Hw. rewrite str_app_assoc. cbn [String.append].
  now destruct w.
Qed.

(** Inside a run of white space further white space is skipped. *)
Lemma split_run (a : string) :
  forall (cur rest : string),
    allSpace a = true -> splitWsFrom cur true (a ++ rest) = splitWsFrom cur true rest.
Proof.
  induction a as [|c a IH]; intros cur rest H; [reflexivity|].
  unfold allSpace in H. cbn in H. apply andb_prop in H as [Hc Ha].
  cbn [String.append splitWsFrom]. rewrite Hc. now apply IH.
Qed.

Lemma split_pieces (pieces : list (string * string)) :
  forall cur : string,
    forallb isPiece pieces = true ->
    splitWsFrom cur false (joinWords pieces) = rev cur :: map snd pieces.
Proof.
  induction pieces as [|[separator word] rest IH]; intros cur H; [reflexivity|].
  cbn [forallb] in H. apply andb_prop in H as [Hp Hrest].
  apply andb_prop in Hp as [Hs Hw]. cbn [fst snd] in Hs, Hw.
  unfold isSeparator in Hs. apply andb_prop in Hs as [Hne Hs].
  unfold isWord in Hw. apply andb_prop in Hw as [Hwne Hw].
  cbn [joinWords map snd].
  destruct separator as [|c separator]; [discriminate Hne|].
  unfold allSpace in Hs. cbn in Hs. apply andb_prop in Hs as [Hc Hs].
  cbn [String.append splitWsFrom]. rewrite Hc.
  rewrite split_run by exact Hs.
  rewrite split_word by exact Hw.
  destruct word as [|d word]; [discriminate Hwne|].
  rewrite IH by exact Hrest.
  now rewrite str_app_nil_r, rev_involutive.
Qed.

(** X9: the word count is right on running text.  When the text of the
    body is a word followed by further words, each after a non-empty run
    of white space, with any white space before and after, the count is
    the number of words. *)
Theorem wordCount_counts_words (doc : Document) (lead first trail : string)
    (pieces : list (string * string)) :
  text (select [byTag "body"] doc) = (lead ++ (first ++ joinWords pieces) ++ trail)%string ->
  allSpace lead = true ->
  allSpace trail = true ->
  isWord first = true ->
  forallb isPiece pieces = true ->
  splitWs (trim (text (select [byTag "body"] doc))) = first :: map snd pieces
  /\ wordCountOf doc = S (length pieces).
Proof.
  intros E Hl Ht Hf Hp.
  assert (S : splitWs (trim (text (select [byTag "body"] doc))) = first :: map snd pieces).
  { rewrite E, trim_padding; try assumption.
    - unfold splitWs. unfold isWord in Hf. apply andb_prop in Hf as [Hne Hf].
      rewrite split_word by exact Hf.
      destruct first as [|c first]; [discriminate Hne|].
      rewrite split_pieces by exact Hp.
      now rewrite str_app_nil_r, rev_involutive.
    - apply startsBlack_app. now apply word_black.
    - rewrite rev_app. destruct pieces as [|piece rest].
      + cbn. now apply word_rev_black.
      + apply startsBlack_app. apply joinWords_rev_black; [exact Hp | discriminate]. }
  split; [exact S|]. unfold wordCountOf. rewrite S. cbn. now rewrite length_map.
Qed.

(** X10: a body without text counts as one word, not as none: splitting
    the empty string gives one empty piece. *)
Theorem blank_body_counts_one_word (doc : Document) :
  allSpace (text (select [byTag "body"] doc)) = true ->
  splitWs (trim (text (select [byTag "body"] doc))) = [""]
  /\ wordCountOf doc = 1.
Proof.
  intros H. unfold wordCountOf. rewrite trim_blank by exact H. split; reflexivity.
Qed.

Lemma encode_cons (c : ascii) (r : string) :
  encodeURIComponent (String c r)
  = (encodeURIComponent (String c "") ++ encodeURIComponent r)%string.
Proof. cbn [encodeURIComponent]. now rewrite str_app_nil_r. Qed.

Lemma encode_char_safe (c : ascii) :
  forallb urlSafe (list_ascii_of_string (encodeURIComponent (String c ""))) = true.
Proof.
  destruct c as [[|] [|] [|] [|] [|] [|] [|] [|]]; vm_compute; reflexivity.
Qed.

Lemma encode_safe (s : string) :
  forallb urlSafe (list_ascii_of_string (encodeURIComponent s)) = true.
Proof.
  induction s as [|c s IH]; [reflexivity|].
  rewrite encode_cons, chars_app, forallb_app, encode_char_safe. exact IH.
Qed.

(** X11: every proxy URL is its fixed prefix followed by the encoded
    address, and the encoded address consists of unreserved characters
    and percent signs only; none of the delimiters of a URL occurs in
    it, so the address cannot add to or cut short the proxy's query. *)
Theorem proxy_urls_embed_encoded_address (url : string) :
  proxyUrls url
  = map (fun prefix => (prefix ++ encodeURIComponent url)%string)
        [ "https://api.allorigins.win/raw?url=";
          "https://corsproxy.io/?";
          "https://api.codetabs.com/v1/proxy?quest=" ]
  /\ forallb urlSafe (list_ascii_of_string (encodeURIComponent url)) = true
  /\ forall c : ascii,
       In c (list_ascii_of_string "&=#?/:+ ") ->
       ~ In c (list_ascii_of_string (encodeURIComponent url)).
Proof.
  split; [reflexivity|]. split; [apply encode_safe|].
  intros c Hc Hin.
  pose proof (encode_safe url) as H. rewrite forallb_forall in H.
  specialize (H c Hin). cbn in Hc.
  repeat (destruct Hc as [<-|Hc]; [discriminate H|]). exact Hc.
Qed.

(** Five words with a tab, a line break and blanks between and around. *)
Lemma wordCount_counts_words_witness :
  let page :=
    [ Element "body" []
        [ Text "  one two";
          Element "b" [] [Text "  three"];
          Text (String "010" ("four" ++ String "009" "five ")) ] ] in
  wordCountOf page = 5.
Proof.
  cbv zeta.
  apply (wordCount_counts_words _ "  " "one" " "
           [ (" ", "two"); ("  ", "three"); (String "010" "", "four");
             (String "009" "", "five") ]);
    reflexivity.
Defined.

(** A page whose body holds only an image. *)
Lemma blank_body_counts_one_word_witness :
  allSpace (text (select [byTag "body"] worstPage)) = true
  /\ wordCountOf worstPage = 1.
Proof.
  split; [reflexivity|].
  apply (blank_body_counts_one_word worstPage). reflexivity.
Defined.

(* ================================================================== *)
(** ** The numbers in the messages *)

Lemma ofNat_inj (n m : nat) : ofNat n = ofNat m -> n = m.
Proof.
  unfold ofNat. intros H. apply Unsigned.to_uint_inj.
  assert (E : Some (Nat.to_uint n) = Some (Nat.to_uint m))
    by (rewrite <- !NilEmpty.usu; now rewrite H).
  now injection E.
Qed.

Lemma ofNat_digits (n : nat) : forallb isDigit (list_ascii_of_string (ofNat n)) = true.
Proof. unfold ofNat. induction (Nat.to_uint n); cbn; auto. Qed.

Lemma str_app_inv_head (p a b : string) : (p ++ a)%string = (p ++ b)%string -> a = b.
Proof. induction p as [|c p IH]; cbn; [auto|]. intros [= H]. auto. Qed.

(** Two texts that start with a number and a blank agree on the number
    and on the rest. *)
Lemma digits_then_blank (d1 : string) :
  forall d2 r1 r2 : string,
    forallb isDigit (list_ascii_of_string d1) = true ->
    forallb isDigit (list_ascii_of_string d2) = true ->
    (d1 ++ String " " r1)%string = (d2 ++ String " " r2)%string ->
    d1 = d2 /\ r1 = r2.
Proof.
  induction d1 as [|c d1 IH]; intros [|c2 d2] r1 r2 H1 H2 E; cbn in *.
  - injection E as <-. auto.
  - injection E as <- _. discriminate H2.
  - injection E as -> _. discriminate H1.
  - injection E as <- E.
    apply andb_prop in H1 as [_ H1]. apply andb_prop in H2 as [_ H2].
    destruct (IH d2 r1 r2 H1 H2 E) as [-> ->]. auto.
Qed.

Lemma numbered_inv (n m : nat) (r1 r2 : string) :
  (ofNat n ++ String " " r1)%string = (ofNat m ++ String " " r2)%string ->
  n = m /\ r1 = r2.
Proof.
  intros E.
  destruct (digits_then_blank _ _ _ _ (ofNat_digits n) (ofNat_digits m) E) as [H ->].
  split; [now apply ofNat_inj | reflexivity].
Qed.

(** Settle what a row says against a message with a number in it: the
    row says something else, or it says the same of the same number. *)
Ltac compare_messages Hi :=
  first
    [ discriminate Hi
    | apply ofNat_head in Hi; discriminate Hi
    | symmetry in Hi; apply ofNat_head in Hi; discriminate Hi
    | apply numbered_inv in Hi; destruct Hi as [Hi Hrest];
      first [ discriminate Hrest | subst ]
    | apply str_app_inv_head in Hi; apply numbered_inv in Hi;
      destruct Hi as [Hi _]; subst
    | cbn in Hi; discriminate Hi ].

Ltac rows_with_number H :=
  apply In_appended in H;
  let c := fresh "c" in
  let Hc := fresh "Hc" in
  let Ht := fresh "Ht" in
  let Hi := fresh "Hi" in
  destruct H as [c [Hc [Ht Hi]]];
  cbv beta zeta delta [metaChecks contentChecks performanceChecks] in Hc;
  cbn [In] in Hc;
  repeat (destruct Hc as [Hc|Hc]); try contradiction;
  subst c; cbn [issue triggered] in Hi, Ht;
  compare_messages Hi.

Ltac report_row :=
  apply In_appended;
  match goal with
  | |- exists c, In c ?cs /\ _ /\ issue c = _ =>
      let rec go l :=
        match l with
        | ?r :: ?rest =>
            first [ exists r;
                    split; [cbv beta zeta delta [contentChecks performanceChecks];
                            cbn [In]; auto 20|];
                    split; [cbn [triggered]; now apply Nat.ltb_lt | reflexivity]
                  | go rest ]
        end in
      let l := eval cbv beta zeta delta [contentChecks performanceChecks] in cs in
      go l
  end.

(** X12: the number in 'N images missing alt text' is the number of
    [img] elements whose [alt] is absent or empty, and the issue is
    reported exactly when that number is not zero. *)
Theorem alt_text_issue_counts_images (url : string) (doc : Document) (n : nat) :
  In (ofNat n ++ " images missing alt text")%string (contentIssues (analysis url doc))
  <-> 0 < n /\ n = length (filter withoutAlt (select [byTag "img"] doc)).
Proof.
  rewrite contentIssues_appended. split.
  - intros H. rows_with_number H. apply Nat.ltb_lt in Ht. auto.
  - intros [Hn ->]. report_row.
Qed.

(** X13: each performance issue is reported exactly when its count
    exceeds its limit (5 style sheets, 10 scripts with [src], 5 elements
    with a [style] attribute, 5 scripts without [src], 10 images whose
    [src] ends in .jpg, .png or .gif, 2 iframes), and the number in the
    message is that count. *)
Theorem performance_issues_report_counts (url : string) (doc : Document) (n : nat) :
  let issues := performanceIssues (analysis url doc) in
  (In ("High number of CSS files (" ++ ofNat n ++ " found, recommend combining)")%string
      issues
   <-> 5 < n /\ n = length (select [withAttr "link" (Equals "rel" "stylesheet")] doc))
  /\ (In ("High number of JavaScript files (" ++ ofNat n
          ++ " found, recommend combining)")%string issues
      <-> 10 < n /\ n = length (select [withAttr "script" (Has "src")] doc))
  /\ (In (ofNat n ++ " inline styles found (recommend using external CSS)")%string issues
      <-> 5 < n /\ n = length (select [{| tag := None; tests := [Has "style"] |}] doc))
  /\ (In (ofNat n ++ " inline scripts found (recommend using external JS files)")%string
         issues
      <-> 5 < n /\ n = length (select [withAttr "script" (Lacks "src")] doc))
  /\ (In (ofNat n ++ " large images found (recommend optimizing)")%string issues
      <-> 10 < n /\ n = length (filter isLargeImage (select [byTag "img"] doc)))
  /\ (In (ofNat n ++ " iframes found (consider reducing for better performance)")%string
         issues
      <-> 2 < n /\ n = length (select [byTag "iframe"] doc)).
Proof.
  cbv zeta. rewrite performanceIssues_appended.
  repeat match goal with |- _ /\ _ => split end; split;
    try (intros H; rows_with_number H; apply Nat.ltb_lt in Ht; auto);
    try (intros [Hn ->]; report_row).
Qed.
